(** * Seismic detection loop of the Pico 2 standalone firmware

    A shallow embedding of [pico2_rp2350_standalone.c]: the circular sample
    window, the three polled cadences of the main loop, the placeholder
    amplitude classifier, the confidence-to-alert policy and the debounced
    silence button.

    - C [float] is IEEE-754 binary32, modelled with the Standard Library's
      [spec_float] at precision 24 and maximal exponent 128 (round to
      nearest, ties to even); every operation of an expression is rounded
      on its own.
    - [uint16_t] / [uint32_t] values are [Z] with the wrap-around written out.
    - The file-scope globals and the pins form one [machine] record; the C
      functions are programs of a small state monad over it.  Everything the
      firmware writes to the board ([gpio_put], [sleep_ms], [printf]) is
      appended to [io_log]; everything it reads (millisecond clock, ADC,
      button pin) comes from an arbitrary [hardware] oracle.
    - [main] is modelled from the entry of [while (1)] on; the pin set-up
      and the start-up banner before it are not. *)

From Stdlib Require Import ZArith Bool Lia.
From Stdlib Require Import Floats.SpecFloat.
From stdpp Require Import base list strings.

Local Open Scope Z_scope.

(* ====================================================================== *)
(** * Machine integers *)

Definition uint16 (z : Z) : Z := z mod 2 ^ 16.
Definition uint32 (z : Z) : Z := z mod 2 ^ 32.

(* ====================================================================== *)
(** * Single-precision floats *)

Module F32.

Definition prec : Z := 24.
Definition emax : Z := 128.

Definition t : Type := spec_float.

Definition add : t -> t -> t := SFadd prec emax.
Definition sub : t -> t -> t := SFsub prec emax.
Definition mul : t -> t -> t := SFmul prec emax.
Definition div : t -> t -> t := SFdiv prec emax.
Definition fabsf : t -> t := SFabs.

(** C comparisons: every one of them is false on a NaN operand. *)
Definition gt (x y : t) : bool := SFltb y x.
Definition ge (x y : t) : bool := SFleb y x.

(** Conversion of an integer ([uint32_t] or [int]) to [float]. *)
Definition of_Z (z : Z) : t := binary_normalize prec emax z 0 false.

(** The [float] denoted by the decimal literal [n / d] (both exactly
    representable): the correctly rounded quotient. *)
Definition dec (n d : Z) : t := div (of_Z n) (of_Z d).

Definition zero : t := S754_zero false.

(** The literals of the source. *)
Definition c_0_02 : t := Eval vm_compute in dec 2 100.
Definition c_0_05 : t := Eval vm_compute in dec 5 100.
Definition c_0_70 : t := Eval vm_compute in dec 70 100.
Definition c_0_85 : t := Eval vm_compute in dec 85 100.
Definition c_0_95 : t := Eval vm_compute in dec 95 100.
Definition c_0_98 : t := Eval vm_compute in dec 98 100.
Definition c_1_0 : t := Eval vm_compute in of_Z 1.
Definition c_2_0 : t := Eval vm_compute in of_Z 2.
Definition c_5_0 : t := Eval vm_compute in of_Z 5.
Definition c_100_0 : t := Eval vm_compute in of_Z 100.
Definition c_1000_0 : t := Eval vm_compute in of_Z 1000.
Definition c_4095_0 : t := Eval vm_compute in of_Z 4095.
Definition c_3_3 : t := Eval vm_compute in dec 33 10.
Definition c_28_8 : t := Eval vm_compute in dec 288 10.

End F32.

Abbreviation float32 := F32.t.

(* ====================================================================== *)
(** * Hardware configuration *)

Definition ADC_SAMPLES : Z := 64.
Definition ADC_VREF : float32 := F32.c_3_3.
Definition SM24_SENSITIVITY_V_MS : float32 := F32.c_28_8.

Definition LED_BUILTIN : Z := 25.
Definition LED_STATUS : Z := 15.
Definition LED_ALERT : Z := 14.
Definition BUZZER_PIN : Z := 16.
Definition BUTTON_PIN : Z := 17.

Definition SAMPLE_RATE_HZ : Z := 100.
Definition SAMPLE_PERIOD_MS : Z := 10.
Definition WINDOW_SIZE : Z := 256.

(* ====================================================================== *)
(** * Data structures *)

(** [sample_timestamp_ms] is the field [timestamp_ms] of the C structure
    (the name is taken by [inference_result_t]). *)
Record geophone_sample_t := {
  velocity_m_s : float32;
  velocity_mm_s : float32;
  raw_voltage : float32;
  raw_adc : Z;
  sample_timestamp_ms : Z
}.

(** [label] is the NUL-terminated content of [char label[64]]. *)
Record inference_result_t := {
  label : string;
  confidence : float32;
  inference_time_ms : Z;
  timestamp_ms : Z
}.

Record sample_buffer_t := {
  buffer : list float32;
  index : Z;
  filled : bool
}.

(** [static sample_buffer_t geophone_buffer = {0}]. *)
Definition buffer_zero : sample_buffer_t :=
  {| buffer := replicate (Z.to_nat WINDOW_SIZE) F32.zero;
     index := 0;
     filled := false |}.

(* ====================================================================== *)
(** * The board *)

(** What the board answers: the [k]-th call of
    [to_ms_since_boot(get_absolute_time())], of [adc_read()] and of
    [gpio_get(BUTTON_PIN)].  Nothing is assumed about these answers. *)
Record hardware := {
  hw_clock : nat -> Z;
  hw_adc : nat -> Z;
  hw_button : nat -> bool
}.

Inductive printf_arg :=
| ArgStr (s : string)
| ArgFloat (x : float32)
| ArgUInt (n : Z)
| ArgInt (n : Z).

(** What the firmware does to the board.  A [printf] keeps the format as
    it is spelled in the source (escape sequences not expanded). *)
Inductive event :=
| GpioPut (pin : Z) (value : bool)
| SleepMs (ms : Z)
| Printf (fmt : string) (args : list printf_arg).

(** The globals of the translation unit, the [static] local [last_press]
    of [check_button], and the board: its description, how often each of
    its inputs was read so far, and what was written to it. *)
Record machine := {
  geophone_buffer : sample_buffer_t;
  total_events : Z;
  high_confidence_events : Z;
  critical_events : Z;
  system_ready : bool;
  alert_silenced : bool;
  last_press : Z;
  hw : hardware;
  clock_reads : nat;
  adc_reads : nat;
  button_reads : nat;
  io_log : list event
}.

Definition set_geophone_buffer (b : sample_buffer_t) (m : machine) : machine :=
  {| geophone_buffer := b;
     total_events := total_events m;
     high_confidence_events := high_confidence_events m;
     critical_events := critical_events m;
     system_ready := system_ready m;
     alert_silenced := alert_silenced m;
     last_press := last_press m;
     hw := hw m;
     clock_reads := clock_reads m;
     adc_reads := adc_reads m;
     button_reads := button_reads m;
     io_log := io_log m |}.

Definition set_total_events (n : Z) (m : machine) : machine :=
  {| geophone_buffer := geophone_buffer m;
     total_events := n;
     high_confidence_events := high_confidence_events m;
     critical_events := critical_events m;
     system_ready := system_ready m;
     alert_silenced := alert_silenced m;
     last_press := last_press m;
     hw := hw m;
     clock_reads := clock_reads m;
     adc_reads := adc_reads m;
     button_reads := button_reads m;
     io_log := io_log m |}.

Definition set_high_confidence_events (n : Z) (m : machine) : machine :=
  {| geophone_buffer := geophone_buffer m;
     total_events := total_events m;
     high_confidence_events := n;
     critical_events := critical_events m;
     system_ready := system_ready m;
     alert_silenced := alert_silenced m;
     last_press := last_press m;
     hw := hw m;
     clock_reads := clock_reads m;
     adc_reads := adc_reads m;
     button_reads := button_reads m;
     io_log := io_log m |}.

Definition set_critical_events (n : Z) (m : machine) : machine :=
  {| geophone_buffer := geophone_buffer m;
     total_events := total_events m;
     high_confidence_events := high_confidence_events m;
     critical_events := n;
     system_ready := system_ready m;
     alert_silenced := alert_silenced m;
     last_press := last_press m;
     hw := hw m;
     clock_reads := clock_reads m;
     adc_reads := adc_reads m;
     button_reads := button_reads m;
     io_log := io_log m |}.

Definition set_alert_silenced (b : bool) (m : machine) : machine :=
  {| geophone_buffer := geophone_buffer m;
     total_events := total_events m;
     high_confidence_events := high_confidence_events m;
     critical_events := critical_events m;
     system_ready := system_ready m;
     alert_silenced := b;
     last_press := last_press m;
     hw := hw m;
     clock_reads := clock_reads m;
     adc_reads := adc_reads m;
     button_reads := button_reads m;
     io_log := io_log m |}.

Definition set_last_press (t : Z) (m : machine) : machine :=
  {| geophone_buffer := geophone_buffer m;
     total_events := total_events m;
     high_confidence_events := high_confidence_events m;
     critical_events := critical_events m;
     system_ready := system_ready m;
     alert_silenced := alert_silenced m;
     last_press := t;
     hw := hw m;
     clock_reads := clock_reads m;
     adc_reads := adc_reads m;
     button_reads := button_reads m;
     io_log := io_log m |}.

Definition set_clock_reads (k : nat) (m : machine) : machine :=
  {| geophone_buffer := geophone_buffer m;
     total_events := total_events m;
     high_confidence_events := high_confidence_events m;
     critical_events := critical_events m;
     system_ready := system_ready m;
     alert_silenced := alert_silenced m;
     last_press := last_press m;
     hw := hw m;
     clock_reads := k;
     adc_reads := adc_reads m;
     button_reads := button_reads m;
     io_log := io_log m |}.

Definition set_adc_reads (k : nat) (m : machine) : machine :=
  {| geophone_buffer := geophone_buffer m;
     total_events := total_events m;
     high_confidence_events := high_confidence_events m;
     critical_events := critical_events m;
     system_ready := system_ready m;
     alert_silenced := alert_silenced m;
     last_press := last_press m;
     hw := hw m;
     clock_reads := clock_reads m;
     adc_reads := k;
     button_reads := button_reads m;
     io_log := io_log m |}.

Definition set_button_reads (k : nat) (m : machine) : machine :=
  {| geophone_buffer := geophone_buffer m;
     total_events := total_events m;
     high_confidence_events := high_confidence_events m;
     critical_events := critical_events m;
     system_ready := system_ready m;
     alert_silenced := alert_silenced m;
     last_press := last_press m;
     hw := hw m;
     clock_reads := clock_reads m;
     adc_reads := adc_reads m;
     button_reads := k;
     io_log := io_log m |}.

Definition set_io_log (l : list event) (m : machine) : machine :=
  {| geophone_buffer := geophone_buffer m;
     total_events := total_events m;
     high_confidence_events := high_confidence_events m;
     critical_events := critical_events m;
     system_ready := system_ready m;
     alert_silenced := alert_silenced m;
     last_press := last_press m;
     hw := hw m;
     clock_reads := clock_reads m;
     adc_reads := adc_reads m;
     button_reads := button_reads m;
     io_log := l |}.

(* ====================================================================== *)
(** * The state monad of the firmware *)

Definition M (A : Type) : Type := machine -> A * machine.

Definition ret {A} (a : A) : M A := fun m => (a, m).

Definition bind {A B} (c : M A) (k : A -> M B) : M B :=
  fun m => let (a, m') := c m in k a m'.

Definition get_machine : M machine := fun m => (m, m).

Definition modify (f : machine -> machine) : M unit := fun m => (tt, f m).

Definition exec {A} (c : M A) (m : machine) : machine := snd (c m).
Definition eval {A} (c : M A) (m : machine) : A := fst (c m).

Declare Scope fw_scope.
Delimit Scope fw_scope with fw.
Notation "'let*' x := c 'in' k" := (bind c (fun x => k))
  (at level 10, x name, c at level 100, k at level 200) : fw_scope.
Notation "c ;; k" := (bind c (fun _ => k))
  (at level 100, k at level 200, right associativity) : fw_scope.
Local Open Scope fw_scope.

(** [for (int i = 0; i < count; i++) body] with a body that ignores [i]. *)
Fixpoint repeat_n (n : nat) (body : M unit) : M unit :=
  match n with
  | O => ret tt
  | S n' => body ;; repeat_n n' body
  end.

Definition for_count (count : Z) (body : M unit) : M unit :=
  repeat_n (Z.to_nat count) body.

(** ** SDK calls *)

Definition emit (e : event) : M unit :=
  modify (fun m => set_io_log (io_log m ++ [e]) m).

Definition gpio_put (pin : Z) (value : bool) : M unit := emit (GpioPut pin value).
Definition sleep_ms (ms : Z) : M unit := emit (SleepMs ms).
Definition printf (fmt : string) (args : list printf_arg) : M unit :=
  emit (Printf fmt args).

(** [to_ms_since_boot(get_absolute_time())], a [uint32_t]. *)
Definition to_ms_since_boot : M Z :=
  fun m => (uint32 (hw_clock (hw m) (clock_reads m)),
            set_clock_reads (S (clock_reads m)) m).

(** [adc_read()], a [uint16_t]. *)
Definition adc_read : M Z :=
  fun m => (uint16 (hw_adc (hw m) (adc_reads m)),
            set_adc_reads (S (adc_reads m)) m).

(** [gpio_get(BUTTON_PIN)]. *)
Definition gpio_get_button : M bool :=
  fun m => (hw_button (hw m) (button_reads m),
            set_button_reads (S (button_reads m)) m).

(* ====================================================================== *)
(** * LED and buzzer control *)

Definition led_blink (pin : Z) (count duration_ms : Z) : M unit :=
  for_count count
    (gpio_put pin true ;;
     sleep_ms duration_ms ;;
     gpio_put pin false ;;
     sleep_ms duration_ms).

Definition buzzer_beep (count duration_ms : Z) : M unit :=
  let* m := get_machine in
  if alert_silenced m then ret tt
  else
    for_count count
      (gpio_put BUZZER_PIN true ;;
       sleep_ms duration_ms ;;
       gpio_put BUZZER_PIN false ;;
       sleep_ms duration_ms).

Definition alert_low_confidence : M unit :=
  led_blink LED_STATUS 2 200.

Definition alert_high_confidence : M unit :=
  led_blink LED_ALERT 5 100 ;;
  buzzer_beep 3 150.

Definition alert_critical : M unit :=
  led_blink LED_ALERT 10 50 ;;
  buzzer_beep 5 100 ;;
  gpio_put LED_ALERT true.

(* ====================================================================== *)
(** * SM-24 geophone data acquisition *)

(** The summing loop of [read_adc_averaged]; [sum] is a [uint32_t]. *)
Fixpoint adc_sum (n : nat) (sum : Z) : M Z :=
  match n with
  | O => ret sum
  | S n' => let* v := adc_read in adc_sum n' (uint32 (sum + v))
  end.

Definition read_adc_averaged : M Z :=
  let* sum := adc_sum (Z.to_nat ADC_SAMPLES) 0 in
  ret (sum / ADC_SAMPLES).

Definition adc_to_voltage (adc_value : Z) : float32 :=
  F32.div (F32.mul (F32.of_Z adc_value) ADC_VREF) F32.c_4095_0.

Definition voltage_to_velocity_ms (voltage : float32) : float32 :=
  let v_center := F32.div ADC_VREF F32.c_2_0 in
  let v_signal := F32.sub voltage v_center in
  F32.div v_signal SM24_SENSITIVITY_V_MS.

Definition acquire_geophone_sample : M geophone_sample_t :=
  let* adc_raw := read_adc_averaged in
  let voltage := adc_to_voltage adc_raw in
  let velocity := voltage_to_velocity_ms voltage in
  let* now := to_ms_since_boot in
  ret {| velocity_m_s := velocity;
         velocity_mm_s := F32.mul velocity F32.c_1000_0;
         raw_voltage := voltage;
         raw_adc := adc_raw;
         sample_timestamp_ms := now |}.

(** The body of [buffer_add_sample] on the structure.  The store
    [buffer[index] = value] is only defined in C for [index] below
    [WINDOW_SIZE]; the window invariant proved below keeps the cursor in
    that range. *)
Definition buffer_push (value : float32) (b : sample_buffer_t) : sample_buffer_t :=
  let stored := <[Z.to_nat (index b) := value]> (buffer b) in
  let index' := uint16 (index b + 1) in
  if WINDOW_SIZE <=? index' then
    {| buffer := stored; index := 0; filled := true |}
  else
    {| buffer := stored; index := index'; filled := filled b |}.

Definition buffer_add_sample (value : float32) : M unit :=
  modify (fun m => set_geophone_buffer (buffer_push value (geophone_buffer m)) m).

(** A run of acquisitions seen from the window: the values pushed, in
    the order of the pushes. *)
Fixpoint add_samples (vs : list float32) : M unit :=
  match vs with
  | [] => ret tt
  | v :: vs' => buffer_add_sample v ;; add_samples vs'
  end.

(* ====================================================================== *)
(** * Placeholder inference *)

(** The accumulation loop over [buffer[0 .. WINDOW_SIZE-1]], in storage
    order. *)
Definition sum_abs (w : list float32) : float32 :=
  fold_left (fun acc x => F32.add acc (F32.fabsf x)) w F32.zero.

(** What the loop reads: [buffer[i]] for [i = 0 .. WINDOW_SIZE-1]. *)
Definition window_read (b : sample_buffer_t) : list float32 :=
  take (Z.to_nat WINDOW_SIZE) (buffer b).

Definition avg_amplitude (b : sample_buffer_t) : float32 :=
  F32.div (sum_abs (window_read b)) (F32.of_Z WINDOW_SIZE).

(** The amplitude bands of [run_inference]: the label and the confidence
    that it assigns for a mean amplitude. *)
Definition classify (avg : float32) : string * float32 :=
  if F32.gt avg F32.c_0_05 then
    let c := F32.add F32.c_0_85 (F32.mul avg F32.c_2_0) in
    ("earthquake", if F32.gt c F32.c_1_0 then F32.c_0_98 else c)
  else if F32.gt avg F32.c_0_02 then
    let c := F32.add F32.c_0_70 (F32.mul avg F32.c_5_0) in
    ("tremor", if F32.gt c F32.c_1_0 then F32.c_0_85 else c)
  else
    ("noise", F32.c_0_95).

(** [result] is the record behind the pointer argument: fields that the
    function does not assign keep the value they had. *)
Definition run_inference (result : inference_result_t) : M inference_result_t :=
  let* m := get_machine in
  if negb (filled (geophone_buffer m)) then
    ret {| label := "insufficient_data";
           confidence := F32.zero;
           inference_time_ms := 0;
           timestamp_ms := timestamp_ms result |}
  else
    let* start_time := to_ms_since_boot in
    let '(lbl, conf) := classify (avg_amplitude (geophone_buffer m)) in
    let* end_time := to_ms_since_boot in
    ret {| label := lbl;
           confidence := conf;
           inference_time_ms := uint32 (end_time - start_time);
           timestamp_ms := end_time |}.

(* ====================================================================== *)
(** * Event processing *)

(** [strcmp(a, b) == 0] on NUL-terminated contents. *)
Definition strcmp_eq0 (a b : string) : bool := String.eqb a b.

Definition process_inference_result (result : inference_result_t) : M unit :=
  if strcmp_eq0 (label result) "noise" then ret tt
  else
    printf "\n╔═══════════════════════════════════════════════╗\n" [] ;;
    printf "║     SEISMIC EVENT DETECTED                    ║\n" [] ;;
    printf "╚═══════════════════════════════════════════════╝\n" [] ;;
    printf "  Event Type: %s\n" [ArgStr (label result)] ;;
    printf "  Confidence: %.2f%%\n"
           [ArgFloat (F32.mul (confidence result) F32.c_100_0)] ;;
    printf "  Inference Time: %u ms\n" [ArgUInt (inference_time_ms result)] ;;
    printf "  Timestamp: %llu ms\n" [ArgUInt (timestamp_ms result)] ;;
    modify (fun m => set_total_events (uint32 (total_events m + 1)) m) ;;
    (if F32.ge (confidence result) F32.c_0_95 then
       printf "\n  *** CRITICAL ALERT - VERY HIGH CONFIDENCE ***\n" [] ;;
       alert_critical ;;
       modify (fun m => set_critical_events (uint32 (critical_events m + 1)) m)
     else if F32.ge (confidence result) F32.c_0_85 then
       printf "\n  *** HIGH CONFIDENCE ALERT ***\n" [] ;;
       alert_high_confidence ;;
       modify (fun m =>
                 set_high_confidence_events (uint32 (high_confidence_events m + 1)) m)
     else
       printf "\n  [Low confidence detection]\n" [] ;;
       alert_low_confidence) ;;
    let* m := get_machine in
    printf "\n  Total Events: %u | High Conf: %u | Critical: %u\n"
           [ArgUInt (total_events m); ArgUInt (high_confidence_events m);
            ArgUInt (critical_events m)] ;;
    printf "═══════════════════════════════════════════════\n\n" [].

(* ====================================================================== *)
(** * System status and the silence button *)

Definition print_system_status : M unit :=
  let* m := get_machine in
  printf "\n┌───────────────────────────────────────────────┐\n" [] ;;
  printf "│         SYSTEM STATUS                         │\n" [] ;;
  printf "├───────────────────────────────────────────────┤\n" [] ;;
  printf "│ Geophone: %s                          │\n"
         [ArgStr (if system_ready m then "✓ Active    " else "✗ Inactive  ")] ;;
  printf "│ Buffer: %s                              │\n"
         [ArgStr (if filled (geophone_buffer m) then "✓ Ready     " else "○ Filling   ")] ;;
  printf "│ Events Detected: %-5u                      │\n" [ArgUInt (total_events m)] ;;
  printf "│ High Confidence: %-5u                      │\n"
         [ArgUInt (high_confidence_events m)] ;;
  printf "│ Critical Events: %-5u                      │\n" [ArgUInt (critical_events m)] ;;
  printf "│ Alert: %s                               │\n"
         [ArgStr (if alert_silenced m then "Silenced    " else "Enabled     ")] ;;
  printf "└───────────────────────────────────────────────┘\n" [].

Definition check_button : M unit :=
  let* now := to_ms_since_boot in
  let* pin := gpio_get_button in
  let* m := get_machine in
  if negb pin && (500 <? uint32 (now - last_press m)) then
    let silenced := negb (alert_silenced m) in
    modify (set_alert_silenced silenced) ;;
    gpio_put LED_ALERT false ;;
    printf "\n[BUTTON] Alert %s\n" [ArgStr (if silenced then "SILENCED" else "ENABLED")] ;;
    led_blink LED_BUILTIN (if silenced then 1 else 3) 100 ;;
    modify (set_last_press now)
  else ret tt.

(* ====================================================================== *)
(** * Main loop *)

(** The automatic variables of [main] that live across iterations. *)
Record main_locals := {
  last_sample_time : Z;
  last_inference_time : Z;
  last_status_time : Z;
  heartbeat_counter : Z;
  current_sample : geophone_sample_t;
  inference : inference_result_t
}.

(** The three polled cadences of one iteration, each an [if] of the loop
    body.  The boolean they return records whether the branch was taken;
    it is an observation of the model and feeds back into nothing. *)

Definition acquisition_tick (now : Z) (l : main_locals) : M (bool * main_locals) :=
  if SAMPLE_PERIOD_MS <=? uint32 (now - last_sample_time l) then
    let* s := acquire_geophone_sample in
    buffer_add_sample (velocity_m_s s) ;;
    ret (true,
         {| last_sample_time := now;
            last_inference_time := last_inference_time l;
            last_status_time := last_status_time l;
            heartbeat_counter := heartbeat_counter l;
            current_sample := s;
            inference := inference l |})
  else ret (false, l).

Definition inference_tick (now : Z) (l : main_locals) : M (bool * main_locals) :=
  let* m := get_machine in
  if filled (geophone_buffer m) && (2560 <=? uint32 (now - last_inference_time l)) then
    let* r := run_inference (inference l) in
    process_inference_result r ;;
    ret (true,
         {| last_sample_time := last_sample_time l;
            last_inference_time := now;
            last_status_time := last_status_time l;
            heartbeat_counter := heartbeat_counter l;
            current_sample := current_sample l;
            inference := r |})
  else ret (false, l).

Definition status_tick (now : Z) (l : main_locals) : M (bool * main_locals) :=
  if 30000 <=? uint32 (now - last_status_time l) then
    print_system_status ;;
    ret (true,
         {| last_sample_time := last_sample_time l;
            last_inference_time := last_inference_time l;
            last_status_time := now;
            heartbeat_counter := heartbeat_counter l;
            current_sample := current_sample l;
            inference := inference l |})
  else ret (false, l).

Definition heartbeat (l : main_locals) : M main_locals :=
  (if heartbeat_counter l mod 1000 =? 0 then gpio_put LED_BUILTIN true else ret tt) ;;
  (if heartbeat_counter l mod 1000 =? 100 then gpio_put LED_BUILTIN false else ret tt) ;;
  ret {| last_sample_time := last_sample_time l;
         last_inference_time := last_inference_time l;
         last_status_time := last_status_time l;
         heartbeat_counter := uint32 (heartbeat_counter l + 1);
         current_sample := current_sample l;
         inference := inference l |}.

(** Which cadences fired in an iteration. *)
Record fired := {
  fired_acquisition : bool;
  fired_classification : bool;
  fired_status : bool
}.

(** The body of [while (1)]. *)
Definition main_loop_body (l : main_locals) : M (fired * main_locals) :=
  let* now := to_ms_since_boot in
  let* a := acquisition_tick now l in
  let* c := inference_tick now (snd a) in
  let* s := status_tick now (snd c) in
  let* l' := heartbeat (snd s) in
  check_button ;;
  sleep_ms 1 ;;
  ret ({| fired_acquisition := fst a;
          fired_classification := fst c;
          fired_status := fst s |}, l').

(** The first [n] iterations of [while (1)], with what fired in each. *)
Fixpoint main_loop (n : nat) (l : main_locals) : M (list fired * main_locals) :=
  match n with
  | O => ret ([], l)
  | S n' =>
      let* r := main_loop_body l in
      let* rs := main_loop n' (snd r) in
      ret (fst r :: fst rs, snd rs)
  end.

(** The locals as [main] sets them before entering the loop; the two
    structures are uninitialised there. *)
Definition main_locals_init (s : geophone_sample_t) (r : inference_result_t) : main_locals :=
  {| last_sample_time := 0;
     last_inference_time := 0;
     last_status_time := 0;
     heartbeat_counter := 0;
     current_sample := s;
     inference := r |}.

(** The globals at the loop entry, on a board [h]. *)
Definition machine_init (h : hardware) : machine :=
  {| geophone_buffer := buffer_zero;
     total_events := 0;
     high_confidence_events := 0;
     critical_events := 0;
     system_ready := true;
     alert_silenced := false;
     last_press := 0;
     hw := h;
     clock_reads := 0;
     adc_reads := 0;
     button_reads := 0;
     io_log := [] |}.


(* ====================================================================== *)
(** * Specification vocabulary *)

(** ** The rolling window *)

(** The window after the pushes [vs], oldest first. *)
Definition pushes (vs : list float32) (b : sample_buffer_t) : sample_buffer_t :=
  fold_left (fun b v => buffer_push v b) vs b.

(** The value that slot [i] holds after the pushes [vs]: a value of the
    current lap below the cursor, one of the previous lap (or the
    initial zero) from the cursor on. *)
Definition slot_after (vs : list float32) (i : Z) : option float32 :=
  let k := Z.of_nat (length vs) in
  let r := k mod WINDOW_SIZE in
  if i <? r then vs !! Z.to_nat (k - r + i)
  else if WINDOW_SIZE <=? k then vs !! Z.to_nat (k - r - WINDOW_SIZE + i)
  else Some F32.zero.

Record window_inv (vs : list float32) (b : sample_buffer_t) : Prop := {
  inv_index : index b = Z.of_nat (length vs) mod WINDOW_SIZE;
  inv_filled : filled b = (WINDOW_SIZE <=? Z.of_nat (length vs));
  inv_length : length (buffer b) = Z.to_nat WINDOW_SIZE;
  inv_slots : forall i, 0 <= i < WINDOW_SIZE ->
                        buffer b !! Z.to_nat i = slot_after vs i
}.

(** The last [WINDOW_SIZE] pushed values, oldest first. *)
Definition last_pushed (vs : list float32) : list float32 :=
  drop (length vs - Z.to_nat WINDOW_SIZE) vs.

(** ** Alert sinks *)

(** The levels written to [pin], in order, among the events [evs]. *)
Definition pin_writes (pin : Z) (evs : list event) : list bool :=
  omap (fun e => match e with
                 | GpioPut p v => if p =? pin then Some v else None
                 | _ => None
                 end) evs.

(** What the firmware did to the board between [m] and [m']. *)
Definition events_since (m m' : machine) : list event :=
  drop (length (io_log m)) (io_log m').

(** [count] on/off pulses on a pin. *)
Definition pulses (count : nat) : list bool :=
  concat (replicate count [true; false]).

(** The three alert counters. *)
Definition counters (m : machine) : Z * Z * Z :=
  (total_events m, high_confidence_events m, critical_events m).

(** ** Floats as numbers *)

(** [x] is a number (not a NaN) with sign bit [s]. *)
Definition has_sign (s : bool) (x : float32) : Prop :=
  match x with
  | S754_zero s' | S754_infinity s' | S754_finite s' _ _ => s' = s
  | S754_nan => False
  end.

(** [0 <= c <= 1], as C compares floats. *)
Definition in_unit_interval (c : float32) : bool :=
  F32.ge c F32.zero && F32.ge F32.c_1_0 c.

(** ** Cadences *)

Inductive cadence := Acquisition | Classification | Status.

(** The period of a cadence, in milliseconds, as the loop spells it. *)
Definition period (c : cadence) : Z :=
  match c with
  | Acquisition => SAMPLE_PERIOD_MS
  | Classification => 2560
  | Status => 30000
  end.

(** The "last fired" variable of a cadence. *)
Definition last_fired (c : cadence) (l : main_locals) : Z :=
  match c with
  | Acquisition => last_sample_time l
  | Classification => last_inference_time l
  | Status => last_status_time l
  end.

Definition fired_of (c : cadence) (f : fired) : bool :=
  match c with
  | Acquisition => fired_acquisition f
  | Classification => fired_classification f
  | Status => fired_status f
  end.

(** What a cadence needs besides its time: only the classification is
    gated, by the window being filled. *)
Definition gate (c : cadence) (m : machine) : bool :=
  match c with
  | Classification => filled (geophone_buffer m)
  | _ => true
  end.

(** How often a cadence fired in a run of iterations. *)
Definition count_fired (c : cadence) (fs : list fired) : nat :=
  length (List.filter (fired_of c) fs).

(** The machine moved on without touching the board description, the
    window or the ADC, and without un-reading the clock. *)
Definition quiet_step (m m' : machine) : Prop :=
  hw m' = hw m
  /\ (clock_reads m <= clock_reads m')%nat
  /\ geophone_buffer m' = geophone_buffer m
  /\ adc_reads m' = adc_reads m.

Definition quiet {A : Type} (c : M A) : Prop :=
  forall m, quiet_step m (exec c m).

(** ** The silence button *)

Definition is_toggle_report (e : event) : bool :=
  match e with
  | Printf fmt _ => String.eqb fmt "\n[BUTTON] Alert %s\n"
  | _ => false
  end.

(** The accepted presses among the events [evs]. *)
Definition toggles (evs : list event) : nat :=
  length (List.filter is_toggle_report evs).

(** A press is accepted at clock value [now]: the pin reads low and more
    than 500 ms passed since the last accepted one. *)
Definition press_accepted (pin : bool) (now : Z) (m : machine) : bool :=
  negb pin && (500 <? uint32 (now - last_press m)).

(** ** Concrete boards and inputs *)

Definition sample_zero : geophone_sample_t :=
  {| velocity_m_s := F32.zero; velocity_mm_s := F32.zero;
     raw_voltage := F32.zero; raw_adc := 0; sample_timestamp_ms := 0 |}.

Definition result_zero : inference_result_t :=
  {| label := ""; confidence := F32.zero;
     inference_time_ms := 0; timestamp_ms := 0 |}.

(** A board whose clock reads [t] at every call, whose ADC reads [adc]
    and whose button is held down ([pressed]) or released. *)
(** A board with the button held down whose clock reads
    [t0, t0 + dt, t0 + 2 dt, ...]. *)
Definition pressed_board (t0 dt : Z) : hardware :=
  {| hw_clock := fun k => t0 + dt * Z.of_nat k; hw_adc := fun _ => 0;
     hw_button := fun _ => false |}.

Definition steady_board (t adc : Z) (pressed : bool) : hardware :=
  {| hw_clock := fun _ => t; hw_adc := fun _ => adc;
     hw_button := fun _ => negb pressed |}.

(** A board whose clock stands at [0], whose ADC reads [0] and whose
    button pin reads high (not pressed). *)
Definition idle_board : hardware :=
  {| hw_clock := fun _ => 0; hw_adc := fun _ => 0; hw_button := fun _ => true |}.

(** The samples [0.0, 1.0, ..., (n-1).0]. *)
Definition ramp (n : nat) : list float32 :=
  map (fun i => F32.of_Z (Z.of_nat i)) (seq 0 n).

(** The machine after a window's worth of acquisitions that all read [v]. *)
Definition steady_machine (v : float32) : machine :=
  exec (add_samples (replicate (Z.to_nat WINDOW_SIZE) v)) (machine_init idle_board).

(** ** Vocabulary of the further properties *)

(** [n] on/off pulses of [ms] milliseconds on [pin], as the board sees
    them. *)
Definition blink_events (pin : Z) (n : nat) (ms : Z) : list event :=
  concat (replicate n [GpioPut pin true; SleepMs ms; GpioPut pin false; SleepMs ms]).

(** The time spent in [sleep_ms] among the events [evs]. *)
Definition slept (evs : list event) : Z :=
  foldr (fun e acc => match e with SleepMs ms => ms + acc | _ => acc end) 0 evs.

Definition is_printf (e : event) : bool :=
  match e with Printf _ _ => true | _ => false end.

Definition sumZ (l : list Z) : Z := foldr Z.add 0 l.

(** The next [n] values that [adc_read] will return on [m]. *)
Definition adc_readings (m : machine) (n : nat) : list Z :=
  map (fun i => uint16 (hw_adc (hw m) (adc_reads m + i))) (seq 0 n).

(** The window is a [WINDOW_SIZE]-slot array with its cursor inside. *)
Definition window_in_bounds (b : sample_buffer_t) : Prop :=
  length (buffer b) = Z.to_nat WINDOW_SIZE /\ 0 <= index b < WINDOW_SIZE.

(** A sequence of results processed one after the other. *)
Fixpoint process_all (rs : list inference_result_t) : M unit :=
  match rs with
  | [] => ret tt
  | r :: rs' => process_inference_result r ;; process_all rs'
  end.

(** The tiers of the alert policy, as predicates on a result. *)
Definition is_event (r : inference_result_t) : bool :=
  negb (strcmp_eq0 (label r) "noise").
Definition is_critical (r : inference_result_t) : bool :=
  is_event r && F32.ge (confidence r) F32.c_0_95.
Definition is_elevated (r : inference_result_t) : bool :=
  is_event r && negb (F32.ge (confidence r) F32.c_0_95)
  && F32.ge (confidence r) F32.c_0_85.

Definition count_results (p : inference_result_t -> bool)
    (rs : list inference_result_t) : Z :=
  Z.of_nat (length (List.filter p rs)).

(** The window with the polarity of every sample reversed. *)
Definition flip_polarity (b : sample_buffer_t) : sample_buffer_t :=
  {| buffer := map SFopp (buffer b); index := index b; filled := filled b |}.

(** A program only appends events that write nothing to [pin]. *)
Definition leaves_pin (pin : Z) (m m' : machine) : Prop :=
  exists evs, io_log m' = io_log m ++ evs /\ pin_writes pin evs = [].

(** A program keeps the alert counters and the silence state. *)
Definition keeps_alarm_state (m m' : machine) : Prop :=
  counters m' = counters m
  /\ alert_silenced m' = alert_silenced m
  /\ last_press m' = last_press m.

(** The arguments of the [printf] calls among the events [evs], in order. *)
Definition printf_args (evs : list event) : list printf_arg :=
  flat_map (fun e => match e with Printf _ args => args | _ => [] end) evs.

(** The counters hold [uint32_t] values. *)
Definition counters_in_range (m : machine) : Prop :=
  0 <= total_events m < 2 ^ 32
  /\ 0 <= high_confidence_events m < 2 ^ 32
  /\ 0 <= critical_events m < 2 ^ 32.

(** A step that keeps the alarm state and does not write the alert LED. *)
Definition calm_step (m m' : machine) : Prop :=
  keeps_alarm_state m m' /\ leaves_pin LED_ALERT m m'.

(* ====================================================================== *)
(** * Properties of the rolling window *)

Section Window.

Local Ltac Zify.zify_post_hook ::= Z.to_euclidean_division_equations.

(** Linear arithmetic with the window capacity as the number it is. *)
Local Ltac window_lia := unfold WINDOW_SIZE in *; lia.

Lemma add_samples_pushes vs m :
  exec (add_samples vs) m
  = set_geophone_buffer (pushes vs (geophone_buffer m)) m.
Proof.
  revert m. induction vs as [|v vs IH]; intros m.
  - destruct m; reflexivity.
  - change (exec (add_samples (v :: vs)) m)
      with (exec (add_samples vs)
              (set_geophone_buffer (buffer_push v (geophone_buffer m)) m)).
    rewrite IH. reflexivity.
Qed.

Lemma window_inv_zero : window_inv [] buffer_zero.
Proof.
  split.
  - reflexivity.
  - reflexivity.
  - apply length_replicate.
  - intros i Hi. unfold slot_after.
    change (Z.of_nat (length (@nil float32))) with 0.
    change (0 mod WINDOW_SIZE) with 0.
    destruct (Z.ltb_spec i 0); [lia|].
    change (WINDOW_SIZE <=? 0) with false. cbv iota.
    apply lookup_replicate_2. unfold WINDOW_SIZE in *. lia.
Qed.

Lemma window_inv_push vs b v :
  window_inv vs b -> window_inv (vs ++ [v]) (buffer_push v b).
Proof.
  intros [Hidx Hfil Hlen Hslots].
  set (k := Z.of_nat (length vs)) in *.
  assert (Hk : Z.of_nat (length (vs ++ [v])) = k + 1).
  { rewrite length_app. simpl. lia. }
  assert (Hr : 0 <= index b < WINDOW_SIZE).
  { rewrite Hidx. unfold WINDOW_SIZE. lia. }
  assert (Hu : uint16 (index b + 1) = index b + 1).
  { unfold uint16. unfold WINDOW_SIZE in Hr. lia. }
  assert (Hlook : forall j : Z, 0 <= j < k ->
            (vs ++ [v]) !! Z.to_nat j = vs !! Z.to_nat j).
  { intros j Hj. apply lookup_app_l. lia. }
  assert (Hlast : (vs ++ [v]) !! Z.to_nat k = Some v).
  { replace (Z.to_nat k) with (length vs) by lia.
    apply list_lookup_middle. reflexivity. }
  unfold buffer_push. rewrite Hu.
  destruct (Z.leb_spec WINDOW_SIZE (index b + 1)) as [Hwrap|Hstay].
  - (* the cursor wraps *)
    assert (Hrk : k mod WINDOW_SIZE = WINDOW_SIZE - 1) by lia.
    split; cbn [index filled buffer].
    + rewrite Hk. unfold WINDOW_SIZE in *. lia.
    + rewrite Hk. symmetry. apply Z.leb_le. unfold WINDOW_SIZE in *. lia.
    + rewrite length_insert. exact Hlen.
    + intros i Hi. unfold slot_after. rewrite Hk.
      replace ((k + 1) mod WINDOW_SIZE) with 0 by (unfold WINDOW_SIZE in *; lia).
      destruct (Z.ltb_spec i 0); [lia|].
      destruct (Z.leb_spec WINDOW_SIZE (k + 1)); [|unfold WINDOW_SIZE in *; lia].
      destruct (Z.eq_dec i (index b)) as [->|Hne].
      * rewrite list_lookup_insert_eq by lia.
        replace (k + 1 - 0 - WINDOW_SIZE + index b) with k by lia.
        symmetry. exact Hlast.
      * rewrite list_lookup_insert_ne by lia.
        rewrite Hslots by lia. unfold slot_after. fold k.
        rewrite Hrk.
        destruct (Z.ltb_spec i (WINDOW_SIZE - 1)); [|lia].
        rewrite Hlook by (unfold WINDOW_SIZE in *; lia).
        f_equal. lia.
  - (* the cursor advances *)
    assert (Hrk : (k + 1) mod WINDOW_SIZE = k mod WINDOW_SIZE + 1).
    { unfold WINDOW_SIZE in *. lia. }
    split; cbn [index filled buffer].
    + rewrite Hk, Hrk. lia.
    + rewrite Hk, Hfil.
      destruct (Z.leb_spec WINDOW_SIZE k), (Z.leb_spec WINDOW_SIZE (k + 1));
        try reflexivity; unfold WINDOW_SIZE in *; lia.
    + rewrite length_insert. exact Hlen.
    + intros i Hi. unfold slot_after. rewrite Hk, Hrk.
      destruct (Z.eq_dec i (index b)) as [->|Hne].
      * rewrite list_lookup_insert_eq by lia.
        destruct (Z.ltb_spec (index b) (k mod WINDOW_SIZE + 1)); [|lia].
        replace (k + 1 - (k mod WINDOW_SIZE + 1) + index b) with k by lia.
        symmetry. exact Hlast.
      * rewrite list_lookup_insert_ne by lia.
        rewrite Hslots by lia. unfold slot_after. fold k.
        destruct (Z.ltb_spec i (k mod WINDOW_SIZE)),
                 (Z.ltb_spec i (k mod WINDOW_SIZE + 1)); try lia.
        -- rewrite Hlook by (unfold WINDOW_SIZE in *; lia). f_equal. lia.
        -- destruct (Z.leb_spec WINDOW_SIZE k), (Z.leb_spec WINDOW_SIZE (k + 1));
             try (unfold WINDOW_SIZE in *; lia).
           ++ rewrite Hlook by (unfold WINDOW_SIZE in *; lia). f_equal. lia.
           ++ reflexivity.
Qed.

Lemma pushes_inv vs : window_inv vs (pushes vs buffer_zero).
Proof.
  induction vs as [|v vs IH] using rev_ind.
  - apply window_inv_zero.
  - unfold pushes. rewrite fold_left_app. simpl.
    apply window_inv_push. exact IH.
Qed.

(** The window of the firmware after the pushes [vs] from power-up. *)
Lemma window_after_pushes h vs :
  geophone_buffer (exec (add_samples vs) (machine_init h)) = pushes vs buffer_zero.
Proof. rewrite add_samples_pushes. reflexivity. Qed.

(** C6: the filled flag is set exactly from the push that wraps the write
    cursor from [WINDOW_SIZE - 1] to [0] (the [WINDOW_SIZE]-th push) on,
    and stays set; after every push the cursor is in [[0, WINDOW_SIZE)]. *)
Theorem filled_from_first_wrap (h : hardware) (vs : list float32) :
  let b := geophone_buffer (exec (add_samples vs) (machine_init h)) in
  (filled b = true <-> WINDOW_SIZE <= Z.of_nat (length vs))
  /\ 0 <= index b < WINDOW_SIZE
  /\ index b = Z.of_nat (length vs) mod WINDOW_SIZE
  /\ (forall v, filled (buffer_push v b) = filled b || (index b =? WINDOW_SIZE - 1))
  /\ (forall v, index (buffer_push v b) = 0 <-> index b = WINDOW_SIZE - 1)
  /\ (forall v, 0 <= index (buffer_push v b) < WINDOW_SIZE).
Proof.
  cbv zeta. rewrite window_after_pushes.
  destruct (pushes_inv vs) as [Hidx Hfil Hlen _].
  assert (Hr : 0 <= index (pushes vs buffer_zero) < WINDOW_SIZE).
  { rewrite Hidx. unfold WINDOW_SIZE. lia. }
  assert (Hu : uint16 (index (pushes vs buffer_zero) + 1)
               = index (pushes vs buffer_zero) + 1).
  { unfold uint16. unfold WINDOW_SIZE in Hr. lia. }
  repeat split.
  - rewrite Hfil. apply Z.leb_le.
  - rewrite Hfil. apply Z.leb_le.
  - lia.
  - lia.
  - exact Hidx.
  - intros v. unfold buffer_push. rewrite Hu.
    destruct (Z.leb_spec WINDOW_SIZE (index (pushes vs buffer_zero) + 1));
      destruct (Z.eqb_spec (index (pushes vs buffer_zero)) (WINDOW_SIZE - 1));
      cbn [filled]; try lia;
      destruct (filled (pushes vs buffer_zero)); reflexivity.
  - unfold buffer_push. rewrite Hu.
    destruct (Z.leb_spec WINDOW_SIZE (index (pushes vs buffer_zero) + 1));
      cbn [index]; lia.
  - unfold buffer_push. rewrite Hu.
    destruct (Z.leb_spec WINDOW_SIZE (index (pushes vs buffer_zero) + 1));
      cbn [index]; lia.
  - unfold buffer_push. rewrite Hu.
    destruct (Z.leb_spec WINDOW_SIZE (index (pushes vs buffer_zero) + 1));
      cbn [index]; unfold WINDOW_SIZE in *; lia.
  - unfold buffer_push. rewrite Hu.
    destruct (Z.leb_spec WINDOW_SIZE (index (pushes vs buffer_zero) + 1));
      cbn [index]; lia.
Qed.

(** C4, as stated, fails: after 257 pushes slot 0 holds the newest value,
    so the window that the classifier reads starts with the newest
    sample, not with the oldest of the last 256. *)
Lemma window_read_not_chronological :
  let vs := ramp 257 in
  let b := geophone_buffer (exec (add_samples vs) (machine_init idle_board)) in
  window_read b !! 0%nat = Some (F32.of_Z 256)
  /\ last_pushed vs !! 0%nat = Some (F32.of_Z 1)
  /\ window_read b <> last_pushed vs.
Proof.
  cbv zeta. split; [|split].
  - vm_compute. reflexivity.
  - vm_compute. reflexivity.
  - intros H. apply (f_equal (fun l => l !! 0%nat)) in H.
    vm_compute in H. discriminate H.
Qed.

(** C4, amended: once at least [WINDOW_SIZE] values were pushed, the
    classifier reads the array in storage order, which is the last
    [WINDOW_SIZE] pushed values rotated at the write cursor: the
    [k mod WINDOW_SIZE] newest first, then the older ones.  It holds the
    same values as the chronological window, and is that window when the
    number of pushes is a multiple of [WINDOW_SIZE]. *)
Theorem window_read_rotated (h : hardware) (vs : list float32) :
  WINDOW_SIZE <= Z.of_nat (length vs) ->
  let b := geophone_buffer (exec (add_samples vs) (machine_init h)) in
  let older := (Z.to_nat (WINDOW_SIZE - index b)) in
  index b = Z.of_nat (length vs) mod WINDOW_SIZE
  /\ window_read b = drop older (last_pushed vs) ++ take older (last_pushed vs)
  /\ window_read b ≡ₚ last_pushed vs
  /\ (index b = 0 -> window_read b = last_pushed vs).
Proof.
  intros Hk. cbv zeta. rewrite window_after_pushes.
  destruct (pushes_inv vs) as [Hidx Hfil Hlen Hslots].
  set (b := pushes vs buffer_zero) in *.
  set (k := Z.of_nat (length vs)) in *.
  assert (Hr : 0 <= index b < WINDOW_SIZE).
  { rewrite Hidx. unfold WINDOW_SIZE. lia. }
  assert (Hlast : length (last_pushed vs) = Z.to_nat WINDOW_SIZE).
  { unfold last_pushed. rewrite length_drop. lia. }
  assert (Hrot : window_read b
                 = drop (Z.to_nat (WINDOW_SIZE - index b)) (last_pushed vs)
                   ++ take (Z.to_nat (WINDOW_SIZE - index b)) (last_pushed vs)).
  { unfold window_read. rewrite take_ge by lia.
    apply list_eq. intros j.
    destruct (Nat.lt_ge_cases j (Z.to_nat WINDOW_SIZE)) as [Hj|Hj].
    - replace j with (Z.to_nat (Z.of_nat j)) at 1 by lia.
      rewrite Hslots by lia. unfold slot_after. fold k. rewrite <- Hidx.
      destruct (Z.leb_spec WINDOW_SIZE k); [|lia].
      destruct (Z.ltb_spec (Z.of_nat j) (index b)).
      + rewrite lookup_app_l by (rewrite length_drop; window_lia).
        rewrite lookup_drop. unfold last_pushed. rewrite lookup_drop.
        f_equal. window_lia.
      + rewrite lookup_app_r by (rewrite length_drop; window_lia).
        rewrite length_drop, lookup_take_lt by window_lia.
        rewrite Hlast. unfold last_pushed. rewrite lookup_drop. f_equal. window_lia.
    - rewrite !lookup_ge_None_2; [reflexivity| |lia].
      rewrite length_app, length_drop, length_take. window_lia. }
  split; [exact Hidx|]. split; [exact Hrot|]. split.
  - rewrite Hrot. rewrite Permutation_app_comm. rewrite take_drop. reflexivity.
  - intros H0. rewrite Hrot, H0.
    rewrite drop_ge, take_ge by window_lia. reflexivity.
Qed.

Lemma window_read_rotated_witness :
  WINDOW_SIZE <= Z.of_nat (length (ramp 300))
  /\ window_read (geophone_buffer (exec (add_samples (ramp 300)) (machine_init idle_board)))
     ≡ₚ last_pushed (ramp 300).
Proof.
  assert (H : WINDOW_SIZE <= Z.of_nat (length (ramp 300))).
  { vm_compute. discriminate. }
  split; [exact H|].
  exact (proj1 (proj2 (proj2 (window_read_rotated idle_board (ramp 300) H)))).
Defined.

End Window.

(* ====================================================================== *)
(** * Properties of binary32 comparisons *)

Section Float.

(** The literals as bit patterns: [0x3F59999A], [0x3F733333],
    [0x3F7AE148], [0x3F800000]. *)
Lemma literal_bits :
  F32.c_0_85 = S754_finite false 0xD9999A (-24)
  /\ F32.c_0_95 = S754_finite false 0xF33333 (-24)
  /\ F32.c_0_98 = S754_finite false 0xFAE148 (-24)
  /\ F32.c_1_0 = S754_finite false 0x800000 (-23).
Proof. repeat split. Qed.

Lemma SFcompare_antisym (x y : float32) :
  SFcompare x y = option_map CompOpp (SFcompare y x).
Proof.
  destruct x as [sx|sx| |sx mx ex], y as [sy|sy| |sy my ey]; simpl;
    try reflexivity;
    try (destruct sx; reflexivity);
    try (destruct sy; reflexivity);
    try (destruct sx, sy; reflexivity).
  change (Pos.compare_cont Eq mx my) with (Pos.compare mx my).
  change (Pos.compare_cont Eq my mx) with (Pos.compare my mx).
  rewrite (Z.compare_antisym ey ex), (Pos.compare_antisym my mx).
  destruct sx, sy; simpl; try reflexivity;
    destruct (ey ?= ex); simpl; try reflexivity;
    destruct (my ?= mx)%positive; reflexivity.
Qed.

(** [x < y] excludes [x >= y]. *)
Lemma gt_not_ge (x y : float32) : F32.gt y x = true -> F32.ge x y = false.
Proof.
  unfold F32.gt, F32.ge, SFltb, SFleb.
  rewrite (SFcompare_antisym y x).
  destruct (SFcompare x y) as [[]|]; simpl; congruence.
Qed.

(** On numbers, [not (x > y)] is [x <= y]. *)
Lemma not_gt_le (x y : float32) :
  x <> S754_nan -> y <> S754_nan -> F32.gt x y = false -> F32.ge y x = true.
Proof.
  unfold F32.gt, F32.ge, SFltb, SFleb. intros Hx Hy.
  rewrite (SFcompare_antisym y x).
  destruct x, y; try congruence; simpl;
    repeat match goal with s : bool |- _ => destruct s end; simpl;
    try congruence;
    destruct (_ ?= _); simpl; try congruence;
    destruct (Pos.compare_cont _ _ _); simpl; congruence.
Qed.

Lemma SFcompare_pos_finite (m1 m2 : positive) (e1 e2 : Z) :
  SFcompare (S754_finite false m1 e1) (S754_finite false m2 e2)
  = Some match e1 ?= e2 with
         | Lt => Lt
         | Gt => Gt
         | Eq => Pos.compare m1 m2
         end.
Proof. reflexivity. Qed.

(** Below [0.85f] is below [0.95f]. *)
Lemma below_085_below_095 (x : float32) :
  F32.gt F32.c_0_85 x = true -> F32.ge x F32.c_0_95 = false.
Proof.
  unfold F32.gt, F32.ge, SFltb, SFleb, F32.c_0_85, F32.c_0_95.
  destruct x as [s|s| |s m e].
  - intros _. reflexivity.
  - destruct s; [intros _; reflexivity | intros H; discriminate H].
  - intros H; discriminate H.
  - destruct s; [intros _; reflexivity|].
    rewrite !SFcompare_pos_finite.
    rewrite (Z.compare_antisym e (-24)).
    destruct (Z.compare_spec e (-24)) as [->|He|He];
      cbn [CompOpp]; try (intros H; discriminate H); try reflexivity.
    destruct (Pos.compare_spec m 14260634) as [->|Hm|Hm];
      try (intros H; discriminate H).
    intros _.
    destruct (Pos.compare_spec 15938355 m) as [<-|Hm'|Hm'].
    + discriminate Hm.
    + discriminate (Pos.lt_trans _ _ _ Hm' Hm).
    + reflexivity.
Qed.

(** ** Signs of rounded results *)

Lemma iter_pos_inv {A : Type} (P : A -> Prop) (f : A -> A) :
  (forall x, P x -> P (f x)) ->
  forall (p : positive) (x : A), P x -> P (SpecFloat.iter_pos f p x).
Proof.
  intros Hf. induction p as [p IH|p IH|]; intros x Hx; simpl.
  - apply IH, IH, Hf, Hx.
  - apply IH, IH, Hx.
  - apply Hf, Hx.
Qed.

Lemma shr_1_nonneg (mrs : shr_record) : 0 <= shr_m mrs -> 0 <= shr_m (shr_1 mrs).
Proof.
  destruct mrs as [m r s]. simpl.
  destruct m as [|p|p]; [| |lia]; try destruct p; simpl; lia.
Qed.

Lemma shr_fexp_nonneg (m e : Z) (l : location) :
  0 <= m -> 0 <= shr_m (fst (shr_fexp F32.prec F32.emax m e l)).
Proof.
  intros Hm. unfold shr_fexp, shr.
  assert (H0 : 0 <= shr_m (shr_record_of_loc m l)).
  { destruct l as [|[]]; exact Hm. }
  destruct (fexp F32.prec F32.emax (Zdigits2 m + e) - e) as [|p|p];
    cbn [fst]; try exact H0.
  apply (iter_pos_inv (fun mrs => 0 <= shr_m mrs)); [apply shr_1_nonneg|exact H0].
Qed.

Lemma round_nearest_even_nonneg (m : Z) (l : location) :
  0 <= m -> 0 <= round_nearest_even m l.
Proof.
  intros Hm. destruct l as [|[]]; simpl; try exact Hm; try lia.
  destruct (Z.even m); lia.
Qed.

Lemma binary_round_aux_sign (sx : bool) (mx ex : Z) (lx : location) :
  0 <= mx -> has_sign sx (binary_round_aux F32.prec F32.emax sx mx ex lx).
Proof.
  intros Hm. unfold binary_round_aux.
  pose proof (shr_fexp_nonneg mx ex lx Hm) as H1.
  destruct (shr_fexp F32.prec F32.emax mx ex lx) as [mrs' e'].
  cbn [fst] in H1.
  pose proof (shr_fexp_nonneg
                (round_nearest_even (shr_m mrs') (loc_of_shr_record mrs'))
                e' loc_Exact
                (round_nearest_even_nonneg _ _ H1)) as H2.
  destruct (shr_fexp F32.prec F32.emax
              (round_nearest_even (shr_m mrs') (loc_of_shr_record mrs'))
              e' loc_Exact) as [mrs'' e''].
  cbn [fst] in H2.
  destruct (shr_m mrs'') as [|q|q]; [reflexivity| |lia].
  destruct (e'' <=? F32.emax - F32.prec); reflexivity.
Qed.

Lemma binary_round_sign (sx : bool) (mx : positive) (ex : Z) :
  has_sign sx (binary_round F32.prec F32.emax sx mx ex).
Proof.
  unfold binary_round.
  destruct (shl_align mx ex _) as [mz ez].
  apply binary_round_aux_sign. lia.
Qed.

(** A product of two non-negative numbers, of which the second is finite
    and not zero, is a non-negative number. *)
Lemma mul_sign (x : float32) (my : positive) (ey : Z) :
  has_sign false x ->
  has_sign false (F32.mul x (S754_finite false my ey)).
Proof.
  intros Hx. unfold F32.mul.
  destruct x as [s|s| |s mx ex]; simpl in Hx; subst; try contradiction.
  - reflexivity.
  - reflexivity.
  - unfold SFmul. cbn [xorb]. apply binary_round_aux_sign. lia.
Qed.

(** A sum of a positive finite number and a non-negative number is a
    non-negative number. *)
Lemma add_sign (mx : positive) (ex : Z) (y : float32) :
  has_sign false y -> has_sign false (F32.add (S754_finite false mx ex) y).
Proof.
  intros Hy. unfold F32.add.
  destruct y as [s|s| |s my ey]; simpl in Hy; subst; try contradiction.
  - reflexivity.
  - reflexivity.
  - unfold SFadd, binary_normalize, cond_Zopp.
    destruct (shl_align mx ex (Z.min ex ey)) as [ax ae].
    destruct (shl_align my ey (Z.min ex ey)) as [bx be].
    cbn [fst Z.add]. apply binary_round_sign.
Qed.

(** What compares above a positive finite number is a positive number. *)
Lemma gt_pos_sign (x : float32) (m : positive) (e : Z) :
  F32.gt x (S754_finite false m e) = true -> has_sign false x.
Proof.
  unfold F32.gt, SFltb.
  destruct x as [s|s| |s mx ex]; cbn [SFcompare has_sign];
    try (intros H; discriminate H).
  - destruct s; [intros H; discriminate H | reflexivity].
  - destruct s; [intros H; discriminate H | reflexivity].
Qed.

Lemma has_sign_not_nan (s : bool) (x : float32) : has_sign s x -> x <> S754_nan.
Proof. intros H ->. exact H. Qed.

Lemma nonneg_ge_zero (x : float32) : has_sign false x -> F32.ge x F32.zero = true.
Proof.
  destruct x as [s|s| |s m e]; simpl; intros H; subst; try contradiction;
    reflexivity.
Qed.

End Float.

(* ====================================================================== *)
(** * Properties of the alert policy *)

(** Symbolic execution of straight-line firmware code. *)
Ltac fw_run :=
  cbv beta iota zeta delta
    [exec eval bind ret modify get_machine emit printf gpio_put sleep_ms
     led_blink buzzer_beep for_count repeat_n
     alert_low_confidence alert_high_confidence alert_critical
     set_geophone_buffer set_total_events set_high_confidence_events
     set_critical_events set_alert_silenced set_last_press set_clock_reads
     set_adc_reads set_button_reads set_io_log
     geophone_buffer total_events high_confidence_events critical_events
     system_ready alert_silenced last_press hw clock_reads adc_reads
     button_reads io_log counters
     fst snd negb Z.to_nat Pos.to_nat Pos.iter_op Init.Nat.add].

Section AlertPolicy.

(** The counters after a non-noise result, as the priority chain of
    [process_inference_result] sets them. *)
Lemma process_event_counters (r : inference_result_t) (m : machine) :
  strcmp_eq0 (label r) "noise" = false ->
  let m' := exec (process_inference_result r) m in
  total_events m' = uint32 (total_events m + 1)
  /\ critical_events m'
     = (if F32.ge (confidence r) F32.c_0_95
        then uint32 (critical_events m + 1) else critical_events m)
  /\ high_confidence_events m'
     = (if F32.ge (confidence r) F32.c_0_95 then high_confidence_events m
        else if F32.ge (confidence r) F32.c_0_85
             then uint32 (high_confidence_events m + 1)
             else high_confidence_events m).
Proof.
  intros Hl. unfold process_inference_result. rewrite Hl.
  destruct m as [gb te he ce sr [|] lp h cr ar br lg];
    (destruct (F32.ge (confidence r) F32.c_0_95);
     [|destruct (F32.ge (confidence r) F32.c_0_85)]);
    fw_run; repeat split.
Qed.

(** C7: a result labelled "noise" leaves the machine as it is: no counter
    moves and nothing is written to any pin or to the console. *)
Theorem noise_is_discarded (r : inference_result_t) (m : machine) :
  label r = "noise" ->
  exec (process_inference_result r) m = m
  /\ counters (exec (process_inference_result r) m) = counters m
  /\ events_since m (exec (process_inference_result r) m) = [].
Proof.
  intros Hl. unfold process_inference_result, strcmp_eq0.
  rewrite Hl. change (String.eqb "noise" "noise") with true. cbv iota.
  change (exec (ret tt) m) with m.
  split; [reflexivity|]. split; [reflexivity|].
  unfold events_since. apply drop_all.
Qed.

Lemma noise_is_discarded_witness :
  exec (process_inference_result
          {| label := "noise"; confidence := F32.c_0_95;
             inference_time_ms := 0; timestamp_ms := 2560 |})
       (machine_init idle_board)
  = machine_init idle_board.
Proof.
  exact (proj1 (noise_is_discarded
                  {| label := "noise"; confidence := F32.c_0_95;
                     inference_time_ms := 0; timestamp_ms := 2560 |}
                  (machine_init idle_board) eq_refl)).
Defined.

(** C1: for a non-noise result the tier is chosen with [>=] at both
    thresholds: from [0.95f] on the critical counter moves, from [0.85f]
    up to there the high-confidence counter, below [0.85f] none but the
    total; in particular exactly [0.85f] is elevated, exactly [0.95f] is
    critical and [0.9499f] is elevated. *)
Theorem tier_boundaries (r : inference_result_t) (m : machine) :
  strcmp_eq0 (label r) "noise" = false ->
  let m' := exec (process_inference_result r) m in
  let elevated :=
    counters m' = (uint32 (total_events m + 1),
                   uint32 (high_confidence_events m + 1),
                   critical_events m) in
  let critical :=
    counters m' = (uint32 (total_events m + 1),
                   high_confidence_events m,
                   uint32 (critical_events m + 1)) in
  let advisory :=
    counters m' = (uint32 (total_events m + 1),
                   high_confidence_events m,
                   critical_events m) in
  (confidence r = F32.c_0_85 -> elevated)
  /\ (confidence r = F32.c_0_95 -> critical)
  /\ (confidence r = F32.dec 9499 10000 -> elevated)
  /\ (F32.gt F32.c_0_85 (confidence r) = true -> advisory)
  /\ (F32.ge (confidence r) F32.c_0_95 = true -> critical)
  /\ (F32.ge (confidence r) F32.c_0_85 = true ->
      F32.gt F32.c_0_95 (confidence r) = true -> elevated).
Proof.
  intros Hl. cbv zeta.
  destruct (process_event_counters r m Hl) as (Ht & Hc & Hh).
  unfold counters. rewrite Ht, Hc, Hh.
  repeat split.
  - intros ->. reflexivity.
  - intros ->. reflexivity.
  - intros ->. reflexivity.
  - intros Hlt.
    rewrite (below_085_below_095 _ Hlt), (gt_not_ge _ _ Hlt). reflexivity.
  - intros ->. reflexivity.
  - intros Hge Hlt. rewrite (gt_not_ge _ _ Hlt), Hge. reflexivity.
Qed.

Lemma tier_boundaries_witness :
  counters (exec (process_inference_result
                    {| label := "earthquake"; confidence := F32.c_0_85;
                       inference_time_ms := 0; timestamp_ms := 2560 |})
                 (machine_init idle_board))
  = (1, 1, 0).
Proof.
  exact (proj1 (tier_boundaries
                  {| label := "earthquake"; confidence := F32.c_0_85;
                     inference_time_ms := 0; timestamp_ms := 2560 |}
                  (machine_init idle_board) eq_refl) eq_refl).
Defined.

(** The classifier does not look at the silence flag. *)
Lemma run_inference_ignores_silence (b : bool) (r0 : inference_result_t) (m : machine) :
  eval (run_inference r0) (set_alert_silenced b m) = eval (run_inference r0) m.
Proof.
  unfold run_inference, eval, bind, get_machine.
  cbn [set_alert_silenced geophone_buffer].
  destruct (filled (geophone_buffer m)); cbn [negb]; [|reflexivity].
  unfold to_ms_since_boot. cbn.
  destruct (classify (avg_amplitude (geophone_buffer m))). reflexivity.
Qed.

(** C2: with the alert silenced, a critical non-noise result still moves
    the critical and the total counter and still blinks and latches the
    alert LED, while the buzzer pin is never written; the counters and
    the classification do not depend on the silence flag. *)
Theorem silence_gates_buzzer_only (r : inference_result_t) (m : machine) :
  strcmp_eq0 (label r) "noise" = false ->
  F32.ge (confidence r) F32.c_0_95 = true ->
  alert_silenced m = true ->
  let m' := exec (process_inference_result r) m in
  critical_events m' = uint32 (critical_events m + 1)
  /\ total_events m' = uint32 (total_events m + 1)
  /\ pin_writes LED_ALERT (events_since m m') = pulses 10 ++ [true]
  /\ pin_writes BUZZER_PIN (events_since m m') = []
  /\ (forall b, counters (exec (process_inference_result r) (set_alert_silenced b m))
                = counters m')
  /\ (forall b r0, eval (run_inference r0) (set_alert_silenced b m)
                   = eval (run_inference r0) m).
Proof.
  intros Hl Hc Hs. cbv zeta.
  destruct (process_event_counters r m Hl) as (Ht & Hcr & Hh).
  rewrite Hc in Hcr, Hh.
  split; [exact Hcr|]. split; [exact Ht|].
  assert (Hlog : exists evs,
             io_log (exec (process_inference_result r) m) = io_log m ++ evs
             /\ pin_writes LED_ALERT evs = pulses 10 ++ [true]
             /\ pin_writes BUZZER_PIN evs = []).
  { unfold process_inference_result. rewrite Hl, Hc.
    destruct m as [gb te he ce sr sil lp h cr ar br lg].
    cbn [alert_silenced] in Hs. subst sil.
    fw_run. rewrite <- !app_assoc. cbn [app].
    eexists. split; [reflexivity|]. split; reflexivity. }
  destruct Hlog as (evs & Hevs & Hled & Hbuz).
  unfold events_since. rewrite Hevs, drop_app_length.
  split; [exact Hled|]. split; [exact Hbuz|]. split.
  - intros b.
    destruct (process_event_counters r (set_alert_silenced b m) Hl)
      as (Ht' & Hcr' & Hh').
    rewrite Hc in Hcr', Hh'.
    unfold counters. rewrite Ht, Hcr, Hh, Ht', Hcr', Hh'. reflexivity.
  - intros b r0. apply run_inference_ignores_silence.
Qed.

Lemma silence_gates_buzzer_only_witness :
  pin_writes BUZZER_PIN
    (events_since
       (set_alert_silenced true (machine_init idle_board))
       (exec (process_inference_result
                {| label := "earthquake"; confidence := F32.c_0_98;
                   inference_time_ms := 0; timestamp_ms := 2560 |})
             (set_alert_silenced true (machine_init idle_board))))
  = [].
Proof.
  exact (proj1 (proj2 (proj2 (proj2
           (silence_gates_buzzer_only
              {| label := "earthquake"; confidence := F32.c_0_98;
                 inference_time_ms := 0; timestamp_ms := 2560 |}
              (set_alert_silenced true (machine_init idle_board))
              eq_refl eq_refl eq_refl))))).
Defined.

(** For contrast: not silenced, the same result sounds five beeps. *)
Lemma unsilenced_critical_beeps (r : inference_result_t) (m : machine) :
  strcmp_eq0 (label r) "noise" = false ->
  F32.ge (confidence r) F32.c_0_95 = true ->
  alert_silenced m = false ->
  pin_writes BUZZER_PIN (events_since m (exec (process_inference_result r) m))
  = pulses 5.
Proof.
  intros Hl Hc Hs.
  unfold process_inference_result. rewrite Hl, Hc.
  destruct m as [gb te he ce sr sil lp h cr ar br lg].
  cbn [alert_silenced] in Hs. subst sil.
  unfold events_since. fw_run. rewrite <- !app_assoc. cbn [app].
  rewrite drop_app_length. reflexivity.
Qed.

End AlertPolicy.

(* ====================================================================== *)
(** * Properties of the placeholder classifier *)

Section Classifier.

(** The clamp [if (c > 1.0f) c = clamp] on a non-negative number. *)
Lemma clamp_in_unit_interval (c clamp : float32) :
  has_sign false c ->
  in_unit_interval clamp = true ->
  in_unit_interval (if F32.gt c F32.c_1_0 then clamp else c) = true.
Proof.
  intros Hc Hclamp.
  destruct (F32.gt c F32.c_1_0) eqn:Hgt; [exact Hclamp|].
  unfold in_unit_interval. apply andb_true_intro. split.
  - apply nonneg_ge_zero, Hc.
  - apply not_gt_le; [exact (has_sign_not_nan _ _ Hc)|discriminate|exact Hgt].
Qed.

Lemma classify_in_unit_interval (avg : float32) :
  in_unit_interval (snd (classify avg)) = true.
Proof.
  unfold classify.
  destruct (F32.gt avg F32.c_0_05) eqn:H1; [|destruct (F32.gt avg F32.c_0_02) eqn:H2];
    cbn [snd].
  - apply clamp_in_unit_interval; [|reflexivity].
    apply add_sign, mul_sign. exact (gt_pos_sign _ _ _ H1).
  - apply clamp_in_unit_interval; [|reflexivity].
    apply add_sign, mul_sign. exact (gt_pos_sign _ _ _ H2).
  - reflexivity.
Qed.

(** [run_inference] on a filled window. *)
Lemma run_inference_filled (r0 : inference_result_t) (m : machine) :
  filled (geophone_buffer m) = true ->
  let t0 := uint32 (hw_clock (hw m) (clock_reads m)) in
  let t1 := uint32 (hw_clock (hw m) (S (clock_reads m))) in
  eval (run_inference r0) m
  = {| label := fst (classify (avg_amplitude (geophone_buffer m)));
       confidence := snd (classify (avg_amplitude (geophone_buffer m)));
       inference_time_ms := uint32 (t1 - t0);
       timestamp_ms := t1 |}
  /\ exec (run_inference r0) m = set_clock_reads (S (S (clock_reads m))) m.
Proof.
  intros Hf. unfold run_inference, eval, exec, bind, get_machine.
  rewrite Hf. cbn [negb]. unfold to_ms_since_boot.
  cbn [geophone_buffer set_clock_reads hw clock_reads].
  destruct (classify (avg_amplitude (geophone_buffer m))) as [lbl conf].
  split; reflexivity.
Qed.

(** C8, as stated, fails: a window of steady amplitude [0.07f] is in the
    highest band, and its confidence, about 0.99, is above [0.98f]: the
    clamp only acts above [1.0f]. *)
Lemma confidence_above_098 :
  let m := steady_machine (F32.dec 7 100) in
  let r := eval (run_inference
                   {| label := ""; confidence := F32.zero;
                      inference_time_ms := 0; timestamp_ms := 0 |}) m in
  filled (geophone_buffer m) = true
  /\ F32.gt (avg_amplitude (geophone_buffer m)) F32.c_0_05 = true
  /\ label r = "earthquake"
  /\ F32.gt (confidence r) F32.c_0_98 = true
  /\ F32.ge F32.c_0_98 (confidence r) = false.
Proof. vm_compute. repeat split. Qed.

(** C8, amended: on every full window the placeholder classifier returns
    a confidence in [[0, 1]]; in the highest band (mean amplitude above
    [0.05f]) the label is "earthquake" and the confidence is the affine
    value [0.85f + 2 avg] when that is at most [1.0f] and [0.98f] when it
    is above, so it is at most [1.0f]; a steady [0.08f] yields exactly
    [0.98f]. *)
Theorem classifier_confidence_bounds (r0 : inference_result_t) (m : machine) :
  filled (geophone_buffer m) = true ->
  let r := eval (run_inference r0) m in
  let avg := avg_amplitude (geophone_buffer m) in
  let c := F32.add F32.c_0_85 (F32.mul avg F32.c_2_0) in
  in_unit_interval (confidence r) = true
  /\ (F32.gt avg F32.c_0_05 = true ->
      label r = "earthquake"
      /\ confidence r = (if F32.gt c F32.c_1_0 then F32.c_0_98 else c)
      /\ F32.ge F32.c_1_0 (confidence r) = true)
  /\ (let r8 := eval (run_inference r0) (steady_machine (F32.dec 8 100)) in
      label r8 = "earthquake" /\ confidence r8 = F32.c_0_98).
Proof.
  intros Hf. cbv zeta.
  destruct (run_inference_filled r0 m Hf) as [-> _].
  cbn [label confidence].
  pose proof (classify_in_unit_interval (avg_amplitude (geophone_buffer m))) as Hu.
  split; [exact Hu|]. split.
  - intros Hgt. unfold classify in Hu |- *. rewrite Hgt in Hu |- *.
    cbn [fst snd] in Hu |- *.
    split; [reflexivity|]. split; [reflexivity|].
    unfold in_unit_interval in Hu. apply andb_prop in Hu. exact (proj2 Hu).
  - destruct (run_inference_filled r0 (steady_machine (F32.dec 8 100)) eq_refl)
      as [-> _].
    cbn [label confidence]. vm_compute. split; reflexivity.
Qed.

Lemma classifier_confidence_bounds_witness :
  in_unit_interval
    (confidence
       (eval (run_inference
                {| label := ""; confidence := F32.zero;
                   inference_time_ms := 0; timestamp_ms := 0 |})
             (steady_machine (F32.dec 8 100)))) = true.
Proof.
  exact (proj1 (classifier_confidence_bounds
                  {| label := ""; confidence := F32.zero;
                     inference_time_ms := 0; timestamp_ms := 0 |}
                  (steady_machine (F32.dec 8 100)) eq_refl)).
Defined.

End Classifier.

(* ====================================================================== *)
(** * Frame properties *)

Section Frame.

Lemma exec_bind {A B} (c : M A) (k : A -> M B) (m : machine) :
  exec (bind c k) m = exec (k (eval c m)) (exec c m).
Proof. unfold exec, eval, bind. destruct (c m). reflexivity. Qed.

Lemma eval_bind {A B} (c : M A) (k : A -> M B) (m : machine) :
  eval (bind c k) m = eval (k (eval c m)) (exec c m).
Proof. unfold exec, eval, bind. destruct (c m). reflexivity. Qed.

Lemma run_bind {A B} (c : M A) (k : A -> M B) (m : machine) :
  bind c k m = k (eval c m) (exec c m).
Proof. unfold exec, eval, bind. destruct (c m). reflexivity. Qed.

Lemma eval_ret {A} (a : A) (m : machine) : eval (ret a) m = a.
Proof. reflexivity. Qed.

Lemma exec_ret {A} (a : A) (m : machine) : exec (ret a) m = m.
Proof. reflexivity. Qed.

Lemma quiet_step_refl (m : machine) : quiet_step m m.
Proof. split; [reflexivity|split; [lia|split; reflexivity]]. Qed.

Lemma quiet_step_trans (m1 m2 m3 : machine) :
  quiet_step m1 m2 -> quiet_step m2 m3 -> quiet_step m1 m3.
Proof.
  intros (H1 & H2 & H3 & H4) (H5 & H6 & H7 & H8).
  split; [congruence|]. split; [lia|]. split; congruence.
Qed.

Lemma quiet_ret {A} (a : A) : quiet (ret a).
Proof. intros m. apply quiet_step_refl. Qed.

Lemma quiet_bind {A B} (c : M A) (k : A -> M B) :
  quiet c -> (forall a, quiet (k a)) -> quiet (bind c k).
Proof.
  intros Hc Hk m. rewrite exec_bind.
  eapply quiet_step_trans; [apply Hc|apply Hk].
Qed.

Lemma quiet_get_machine : quiet get_machine.
Proof. intros m. apply quiet_step_refl. Qed.

Lemma quiet_emit (e : event) : quiet (emit e).
Proof. intros m. split; [reflexivity|split; [cbn; lia|split; reflexivity]]. Qed.

Lemma quiet_to_ms_since_boot : quiet to_ms_since_boot.
Proof. intros m. split; [reflexivity|split; [cbn; lia|split; reflexivity]]. Qed.

Lemma quiet_gpio_get_button : quiet gpio_get_button.
Proof. intros m. split; [reflexivity|split; [cbn; lia|split; reflexivity]]. Qed.

Lemma quiet_repeat_n (n : nat) (body : M unit) : quiet body -> quiet (repeat_n n body).
Proof.
  intros Hb. induction n as [|n IH]; simpl.
  - apply quiet_ret.
  - apply quiet_bind; [exact Hb|intros _; exact IH].
Qed.

End Frame.

(** Discharges [quiet] goals by following the structure of the program. *)
Ltac quiet_tac :=
  repeat first
    [ apply quiet_ret
    | apply quiet_get_machine
    | apply quiet_to_ms_since_boot
    | apply quiet_gpio_get_button
    | apply quiet_emit
    | apply quiet_repeat_n
    | apply quiet_bind; [|intros ?]
    | match goal with
      | |- quiet (if ?b then _ else _) => destruct b
      | |- quiet (let '(_, _) := ?p in _) => destruct p
      | |- quiet (modify _) =>
          intros ?; split; [reflexivity|split; [cbn; lia|split; reflexivity]]
      end ].

Section FrameOfRoutines.

Lemma quiet_led_blink pin count d : quiet (led_blink pin count d).
Proof. unfold led_blink, for_count, gpio_put, sleep_ms. quiet_tac. Qed.

Lemma quiet_buzzer_beep count d : quiet (buzzer_beep count d).
Proof. unfold buzzer_beep, for_count, gpio_put, sleep_ms. quiet_tac. Qed.

Lemma quiet_process_inference_result r : quiet (process_inference_result r).
Proof.
  unfold process_inference_result, alert_critical, alert_high_confidence,
    alert_low_confidence, printf, gpio_put.
  pose proof quiet_led_blink. pose proof quiet_buzzer_beep.
  quiet_tac; auto.
Qed.

Lemma quiet_run_inference r : quiet (run_inference r).
Proof. unfold run_inference. quiet_tac. Qed.

Lemma quiet_print_system_status : quiet print_system_status.
Proof. unfold print_system_status, printf. quiet_tac. Qed.

Lemma quiet_check_button : quiet check_button.
Proof.
  unfold check_button, printf, gpio_put.
  pose proof quiet_led_blink. quiet_tac; auto.
Qed.

Lemma quiet_inference_tick now l : quiet (inference_tick now l).
Proof.
  unfold inference_tick.
  pose proof quiet_run_inference. pose proof quiet_process_inference_result.
  quiet_tac; auto.
Qed.

Lemma quiet_status_tick now l : quiet (status_tick now l).
Proof.
  unfold status_tick. pose proof quiet_print_system_status. quiet_tac; auto.
Qed.

Lemma quiet_heartbeat l : quiet (heartbeat l).
Proof. unfold heartbeat, gpio_put. quiet_tac. Qed.

End FrameOfRoutines.

(* ====================================================================== *)
(** * Properties of the acquisition *)

Section Acquisition.

Lemma adc_sum_exec (n : nat) (sum : Z) (m : machine) :
  exec (adc_sum n sum) m = set_adc_reads (adc_reads m + n) m.
Proof.
  revert sum m. induction n as [|n IH]; intros sum m.
  - destruct m. cbn. rewrite Nat.add_0_r. reflexivity.
  - cbn [adc_sum]. rewrite exec_bind, IH.
    destruct m. cbn. rewrite Nat.add_succ_r. reflexivity.
Qed.

Lemma acquire_geophone_sample_exec (m : machine) :
  exec acquire_geophone_sample m
  = set_clock_reads (S (clock_reads m))
      (set_adc_reads (adc_reads m + Z.to_nat ADC_SAMPLES) m).
Proof.
  unfold acquire_geophone_sample, read_adc_averaged.
  rewrite !exec_bind, adc_sum_exec. reflexivity.
Qed.

(** The fields of the acquired sample. *)
Lemma acquire_geophone_sample_eval (m : machine) :
  let s := eval acquire_geophone_sample m in
  raw_adc s = eval read_adc_averaged m
  /\ raw_voltage s = adc_to_voltage (raw_adc s)
  /\ velocity_m_s s = voltage_to_velocity_ms (raw_voltage s)
  /\ velocity_mm_s s = F32.mul (velocity_m_s s) F32.c_1000_0.
Proof.
  cbv zeta. unfold acquire_geophone_sample.
  rewrite !eval_bind, !eval_ret.
  cbn [fst raw_adc raw_voltage velocity_m_s velocity_mm_s].
  split; [reflexivity|]. split; [reflexivity|]. split; reflexivity.
Qed.

Lemma acquisition_tick_due (now : Z) (l : main_locals) (m : machine) :
  (SAMPLE_PERIOD_MS <=? uint32 (now - last_sample_time l)) = true ->
  acquisition_tick now l m
  = (true,
     {| last_sample_time := now;
        last_inference_time := last_inference_time l;
        last_status_time := last_status_time l;
        heartbeat_counter := heartbeat_counter l;
        current_sample := eval acquire_geophone_sample m;
        inference := inference l |},
     set_geophone_buffer
       (buffer_push (velocity_m_s (eval acquire_geophone_sample m))
                    (geophone_buffer m))
       (exec acquire_geophone_sample m)).
Proof.
  intros Hdue. unfold acquisition_tick. rewrite Hdue.
  rewrite run_bind.
  assert (Hb : geophone_buffer (exec acquire_geophone_sample m) = geophone_buffer m).
  { rewrite acquire_geophone_sample_exec. reflexivity. }
  generalize dependent (exec acquire_geophone_sample m).
  generalize (eval acquire_geophone_sample m).
  intros s m1 Hb. unfold bind, buffer_add_sample, modify, ret.
  rewrite Hb. reflexivity.
Qed.

Lemma acquisition_tick_idle (now : Z) (l : main_locals) (m : machine) :
  (SAMPLE_PERIOD_MS <=? uint32 (now - last_sample_time l)) = false ->
  acquisition_tick now l m = (false, l, m).
Proof. intros Hdue. unfold acquisition_tick. rewrite Hdue. reflexivity. Qed.

Lemma buffer_push_filled (v : float32) (b : sample_buffer_t) :
  filled b = true -> filled (buffer_push v b) = true.
Proof.
  intros Hf. unfold buffer_push.
  destruct (WINDOW_SIZE <=? uint16 (index b + 1)); [reflexivity|exact Hf].
Qed.

End Acquisition.

(* ====================================================================== *)
(** * Properties of the main loop *)

Section MainLoop.

Lemma inference_tick_spec (now : Z) (l : main_locals) (m : machine) :
  let g := filled (geophone_buffer m) && (2560 <=? uint32 (now - last_inference_time l)) in
  let r := inference_tick now l m in
  let l' := snd (fst r) in
  fst (fst r) = g
  /\ last_sample_time l' = last_sample_time l
  /\ last_inference_time l' = (if g then now else last_inference_time l)
  /\ last_status_time l' = last_status_time l
  /\ inference l' = (if g then eval (run_inference (inference l)) m else inference l).
Proof.
  cbv zeta. unfold inference_tick, bind, get_machine, eval.
  destruct (filled (geophone_buffer m) && (2560 <=? uint32 (now - last_inference_time l)));
    [|repeat split].
  destruct (run_inference (inference l) m) as [r m1].
  destruct (process_inference_result r m1) as [u m2].
  repeat split.
Qed.

Lemma status_tick_spec (now : Z) (l : main_locals) (m : machine) :
  let g := 30000 <=? uint32 (now - last_status_time l) in
  let r := status_tick now l m in
  let l' := snd (fst r) in
  fst (fst r) = g
  /\ last_sample_time l' = last_sample_time l
  /\ last_inference_time l' = last_inference_time l
  /\ last_status_time l' = (if g then now else last_status_time l).
Proof.
  cbv zeta. unfold status_tick, bind.
  destruct (30000 <=? uint32 (now - last_status_time l)); [|repeat split].
  destruct (print_system_status m) as [u m1]. repeat split.
Qed.

Lemma heartbeat_locals (l : main_locals) (m : machine) :
  let l' := eval (heartbeat l) m in
  last_sample_time l' = last_sample_time l
  /\ last_inference_time l' = last_inference_time l
  /\ last_status_time l' = last_status_time l
  /\ heartbeat_counter l' = uint32 (heartbeat_counter l + 1).
Proof.
  cbv zeta. unfold heartbeat. rewrite !eval_bind, eval_ret. repeat split.
Qed.

(** One iteration, step by step. *)
Lemma main_loop_body_steps (l : main_locals) (m : machine) :
  let now := uint32 (hw_clock (hw m) (clock_reads m)) in
  let m0 := set_clock_reads (S (clock_reads m)) m in
  let a := acquisition_tick now l m0 in
  let c := inference_tick now (snd (fst a)) (snd a) in
  let s := status_tick now (snd (fst c)) (snd c) in
  let hb := heartbeat (snd (fst s)) (snd s) in
  main_loop_body l m
  = ({| fired_acquisition := fst (fst a);
        fired_classification := fst (fst c);
        fired_status := fst (fst s) |},
     fst hb,
     exec (check_button ;; sleep_ms 1) (snd hb)).
Proof.
  cbv zeta. unfold main_loop_body, bind, to_ms_since_boot, exec.
  destruct (acquisition_tick _ l _) as [[fa la] ma]. cbn [fst snd].
  destruct (inference_tick _ la ma) as [[fc lc] mc]. cbn [fst snd].
  destruct (status_tick _ lc mc) as [[fs ls] ms]. cbn [fst snd].
  destruct (heartbeat ls ms) as [lh mh]. cbn [fst snd].
  destruct (check_button mh) as [u mb]. cbn [fst snd].
  reflexivity.
Qed.

(** What one iteration does to every cadence and to the board. *)
Lemma main_loop_body_spec (l : main_locals) (m : machine) :
  let now := uint32 (hw_clock (hw m) (clock_reads m)) in
  let r := main_loop_body l m in
  let f := fst (fst r) in
  let l' := snd (fst r) in
  let m' := snd r in
  hw m' = hw m
  /\ (clock_reads m < clock_reads m')%nat
  /\ (filled (geophone_buffer m) = true -> filled (geophone_buffer m') = true)
  /\ adc_reads m'
     = (adc_reads m + if fired_acquisition f then Z.to_nat ADC_SAMPLES else 0)%nat
  /\ forall c,
       fired_of c f = gate c m' && (period c <=? uint32 (now - last_fired c l))
       /\ last_fired c l' = (if fired_of c f then now else last_fired c l).
Proof.
  cbv zeta. rewrite main_loop_body_steps. cbv zeta. cbn [fst snd].
  set (now := uint32 (hw_clock (hw m) (clock_reads m))).
  set (m0 := set_clock_reads (S (clock_reads m)) m).
  (* acquisition *)
  assert (Ha : hw (snd (acquisition_tick now l m0)) = hw m
               /\ (clock_reads m < clock_reads (snd (acquisition_tick now l m0)))%nat
               /\ (filled (geophone_buffer m) = true ->
                   filled (geophone_buffer (snd (acquisition_tick now l m0))) = true)
               /\ adc_reads (snd (acquisition_tick now l m0))
                  = (adc_reads m
                     + if (SAMPLE_PERIOD_MS <=? uint32 (now - last_sample_time l))%Z
                       then Z.to_nat ADC_SAMPLES else 0)%nat
               /\ fst (fst (acquisition_tick now l m0))
                  = (SAMPLE_PERIOD_MS <=? uint32 (now - last_sample_time l))
               /\ last_sample_time (snd (fst (acquisition_tick now l m0)))
                  = (if SAMPLE_PERIOD_MS <=? uint32 (now - last_sample_time l)
                     then now else last_sample_time l)
               /\ last_inference_time (snd (fst (acquisition_tick now l m0)))
                  = last_inference_time l
               /\ last_status_time (snd (fst (acquisition_tick now l m0)))
                  = last_status_time l).
  { destruct (SAMPLE_PERIOD_MS <=? uint32 (now - last_sample_time l)) eqn:Hdue.
    - rewrite (acquisition_tick_due now l m0 Hdue). cbn [fst snd].
      rewrite acquire_geophone_sample_exec.
      cbn [hw clock_reads adc_reads geophone_buffer set_geophone_buffer
           set_clock_reads set_adc_reads m0
           last_sample_time last_inference_time last_status_time].
      repeat split; try lia. apply buffer_push_filled.
    - rewrite (acquisition_tick_idle now l m0 Hdue). cbn [fst snd].
      unfold m0. cbn [hw clock_reads adc_reads geophone_buffer set_clock_reads].
      repeat split; try lia; auto. }
  destruct (acquisition_tick now l m0) as [[fa la] ma]. cbn [fst snd] in *.
  destruct Ha as (Hhw & Hclk & Hfil & Hadc & Hfa & Hla1 & Hla2 & Hla3).
  (* classification *)
  pose proof (quiet_inference_tick now la ma) as Qc. unfold exec in Qc.
  pose proof (inference_tick_spec now la ma) as Sc. cbv zeta in Sc.
  destruct (inference_tick now la ma) as [[fc lc] mc]. cbn [fst snd] in *.
  destruct Sc as (Hfc & Hlc1 & Hlc2 & Hlc3 & _).
  (* status *)
  pose proof (quiet_status_tick now lc mc) as Qs. unfold exec in Qs.
  pose proof (status_tick_spec now lc mc) as Ss. cbv zeta in Ss.
  destruct (status_tick now lc mc) as [[fs ls] ms]. cbn [fst snd] in *.
  destruct Ss as (Hfs & Hls1 & Hls2 & Hls3).
  (* heartbeat, button, sleep *)
  pose proof (quiet_heartbeat ls ms) as Qh. unfold exec in Qh.
  pose proof (heartbeat_locals ls ms) as Sh. cbv zeta in Sh. unfold eval in Sh.
  destruct (heartbeat ls ms) as [lh mh]. cbn [fst snd] in *.
  destruct Sh as (Hlh1 & Hlh2 & Hlh3 & _).
  assert (Qb : quiet (check_button;; sleep_ms 1)).
  { pose proof quiet_check_button. unfold sleep_ms. quiet_tac; auto. }
  specialize (Qb mh).
  set (m' := exec (check_button;; sleep_ms 1) mh) in *.
  destruct Qc as (Qc1 & Qc2 & Qc3 & Qc4), Qs as (Qs1 & Qs2 & Qs3 & Qs4),
    Qh as (Qh1 & Qh2 & Qh3 & Qh4), Qb as (Qb1 & Qb2 & Qb3 & Qb4).
  assert (Hbuf : geophone_buffer m' = geophone_buffer ma) by congruence.
  split; [congruence|]. split; [lia|]. split; [rewrite Hbuf; exact Hfil|].
  split; [cbn [fired_acquisition]; rewrite Hfa; congruence|].
  intros c.
  destruct c; cbn [fired_of gate period last_fired fired_acquisition
                   fired_classification fired_status andb].
  - rewrite Hlh1, Hls1, Hlc1, Hla1, Hfa. split; reflexivity.
  - rewrite Hlh2, Hls2, Hlc2, Hfc, Hbuf, Hla2. split; reflexivity.
  - rewrite Hlh3, Hls3, Hfs, Hlc3, Hla3. split; reflexivity.
Qed.

Lemma main_loop_S (n : nat) (l : main_locals) (m : machine) :
  let r := main_loop_body l m in
  fst (eval (main_loop (S n) l) m)
  = fst (fst r) :: fst (eval (main_loop n (snd (fst r))) (snd r)).
Proof.
  cbv zeta. cbn [main_loop]. unfold bind, eval, ret.
  destruct (main_loop_body l m) as [[f l1] m1]. cbn [fst snd].
  destruct (main_loop n l1 m1) as [[fs l2] m2]. reflexivity.
Qed.

Lemma count_fired_cons (c : cadence) (f : fired) (fs : list fired) :
  count_fired c (f :: fs)
  = ((if fired_of c f then 1 else 0) + count_fired c fs)%nat.
Proof.
  unfold count_fired. cbn [List.filter]. destruct (fired_of c f); reflexivity.
Qed.

(** While the clock stays within one period of the time [T] at which a
    cadence last fired, the cadence does not fire. *)
Lemma no_refire (c : cadence) (T : Z) (n : nat) :
  forall (l : main_locals) (m : machine),
    last_fired c l = T ->
    (forall k, (clock_reads m <= k)%nat ->
               uint32 (uint32 (hw_clock (hw m) k) - T) < period c) ->
    count_fired c (fst (eval (main_loop n l) m)) = 0%nat.
Proof.
  induction n as [|n IH]; intros l m Hl Hclk; [reflexivity|].
  rewrite main_loop_S. cbv zeta. rewrite count_fired_cons.
  pose proof (main_loop_body_spec l m) as Hs. cbv zeta in Hs.
  destruct (main_loop_body l m) as [[f l1] m1]. cbn [fst snd] in *.
  destruct Hs as (Hhw & Hlt & _ & _ & Hc). specialize (Hc c).
  destruct Hc as [Hf Hl1].
  assert (Hnot : fired_of c f = false).
  { rewrite Hf, Hl. specialize (Hclk (clock_reads m) (le_n _)).
    destruct (Z.leb_spec (period c)
                (uint32 (uint32 (hw_clock (hw m) (clock_reads m)) - T))); [lia|].
    apply andb_false_r. }
  rewrite Hnot in Hl1 |- *. rewrite IH; [reflexivity|congruence|].
  intros k Hk. rewrite Hhw. apply Hclk. lia.
Qed.

(** The result record after one iteration: rewritten by [run_inference]
    on the window as the acquisition of this iteration left it, and only
    when the classification fired. *)
Lemma main_loop_body_inference (l : main_locals) (m : machine) :
  let now := uint32 (hw_clock (hw m) (clock_reads m)) in
  let ma := snd (acquisition_tick now l (set_clock_reads (S (clock_reads m)) m)) in
  let r := main_loop_body l m in
  let f := fst (fst r) in
  let l' := snd (fst r) in
  inference l'
  = (if fired_classification f then eval (run_inference (inference l)) ma
     else inference l)
  /\ (fired_classification f = true -> filled (geophone_buffer ma) = true).
Proof.
  cbv zeta. rewrite main_loop_body_steps. cbv zeta. cbn [fst snd].
  set (now := uint32 (hw_clock (hw m) (clock_reads m))).
  set (m0 := set_clock_reads (S (clock_reads m)) m).
  assert (Ha : inference (snd (fst (acquisition_tick now l m0))) = inference l).
  { destruct (SAMPLE_PERIOD_MS <=? uint32 (now - last_sample_time l)) eqn:Hdue.
    - rewrite (acquisition_tick_due now l m0 Hdue). reflexivity.
    - rewrite (acquisition_tick_idle now l m0 Hdue). reflexivity. }
  destruct (acquisition_tick now l m0) as [[fa la] ma]. cbn [fst snd] in *.
  pose proof (inference_tick_spec now la ma) as Sc. cbv zeta in Sc.
  destruct (inference_tick now la ma) as [[fc lc] mc]. cbn [fst snd] in *.
  destruct Sc as (Hfc & _ & _ & _ & Hinf).
  assert (Hs : inference (snd (fst (status_tick now lc mc))) = inference lc).
  { unfold status_tick, bind.
    destruct (30000 <=? uint32 (now - last_status_time lc)); [|reflexivity].
    destruct (print_system_status mc). reflexivity. }
  destruct (status_tick now lc mc) as [[fs ls] ms]. cbn [fst snd] in *.
  assert (Hh : inference (fst (heartbeat ls ms)) = inference ls).
  { change (fst (heartbeat ls ms)) with (eval (heartbeat ls) ms).
    unfold heartbeat. rewrite !eval_bind, eval_ret. reflexivity. }
  cbn [fired_classification].
  rewrite <- Hfc in Hinf. rewrite Ha in Hinf.
  rewrite Hh, Hs, Hinf. split; [reflexivity|].
  intros Hfired. rewrite Hfired in Hfc. symmetry in Hfc.
  apply andb_prop in Hfc. exact (proj1 Hfc).
Qed.

Lemma classify_label (avg : float32) :
  fst (classify avg) = "earthquake"
  \/ fst (classify avg) = "tremor"
  \/ fst (classify avg) = "noise".
Proof.
  unfold classify.
  destruct (F32.gt avg F32.c_0_05); [left; reflexivity|].
  destruct (F32.gt avg F32.c_0_02); [right; left; reflexivity|].
  right; right; reflexivity.
Qed.

(** C3, as stated, fails for the classification: its time can be due
    while it does not fire, because the window is not filled yet. *)
Lemma classification_due_but_not_fired :
  let m := machine_init (steady_board 3000 0 false) in
  let l := main_locals_init sample_zero result_zero in
  let now := uint32 (hw_clock (hw m) (clock_reads m)) in
  (period Classification <=? uint32 (now - last_fired Classification l)) = true
  /\ fired_of Classification (fst (eval (main_loop_body l) m)) = false.
Proof. vm_compute. split; reflexivity. Qed.

(** C3, amended: in an iteration that reads the clock as [now], the
    acquisition and the status cadence fire exactly when
    [now - last_fired >= period], and the classification exactly when in
    addition the window is filled (this iteration's push included); a
    cadence that fires sets its [last_fired] to [now], one that does not
    leaves it (and the ADC is read, [ADC_SAMPLES] times, exactly in the
    iterations in which the acquisition fires); so after a stall of three periods a cadence (the
    classification: with a filled window) fires once on resuming and not
    again while the clock stays within one period of the resume time. *)
Theorem cadence_fires_when_due (c : cadence) (l : main_locals) (m : machine) :
  let now := uint32 (hw_clock (hw m) (clock_reads m)) in
  let r := main_loop_body l m in
  let f := fst (fst r) in
  let l' := snd (fst r) in
  let m' := snd r in
  fired_of c f = gate c m' && (period c <=? uint32 (now - last_fired c l))
  /\ last_fired c l' = (if fired_of c f then now else last_fired c l)
  /\ adc_reads m'
     = (adc_reads m + if fired_of Acquisition f then Z.to_nat ADC_SAMPLES else 0)%nat
  /\ (forall n,
        3 * period c <= uint32 (now - last_fired c l) ->
        gate c m = true ->
        (forall k, (clock_reads m < k)%nat ->
                   uint32 (uint32 (hw_clock (hw m) k) - now) < period c) ->
        count_fired c (fst (eval (main_loop (S n) l) m)) = 1%nat).
Proof.
  cbv zeta.
  pose proof (main_loop_body_spec l m) as Hs. cbv zeta in Hs.
  destruct Hs as (Hhw & Hlt & Hfil & Hadc & Hc). destruct (Hc c) as [Hf Hl].
  split; [exact Hf|]. split; [exact Hl|]. split; [exact Hadc|].
  intros n Hstall Hgate Hclk.
  rewrite main_loop_S. cbv zeta. rewrite count_fired_cons.
  assert (Hp : 0 < period c) by (destruct c; reflexivity).
  assert (Hg' : gate c (snd (main_loop_body l m)) = true).
  { destruct c; try reflexivity. cbn [gate] in *. apply Hfil, Hgate. }
  assert (Hfired : fired_of c (fst (fst (main_loop_body l m))) = true).
  { rewrite Hf, Hg'. cbn [andb]. apply Z.leb_le. lia. }
  rewrite Hfired in Hl |- *.
  rewrite (no_refire c _ n _ _ Hl); [reflexivity|].
  intros k Hk. rewrite Hhw. apply Hclk. lia.
Qed.

Lemma cadence_fires_when_due_witness :
  count_fired Status
    (fst (eval (main_loop 4 (main_locals_init sample_zero result_zero))
               (machine_init (steady_board 90000 0 false)))) = 1%nat.
Proof.
  refine (proj2 (proj2 (proj2 (cadence_fires_when_due Status
                                 (main_locals_init sample_zero result_zero)
                                 (machine_init (steady_board 90000 0 false)))))
            3%nat _ _ _).
  - vm_compute. discriminate.
  - reflexivity.
  - intros k _. vm_compute. reflexivity.
Defined.

(** C9, as stated, fails: a reading beyond the 12-bit range of the ADC
    (a voltage above the reference) is converted and pushed like any
    other, and so is a reading saturated at full scale. *)
Lemma out_of_range_reading_is_pushed :
  let l := main_locals_init sample_zero result_zero in
  (let m := machine_init (steady_board 10 65535 false) in
   let r := acquisition_tick 10 l m in
   let s := current_sample (snd (fst r)) in
   raw_adc s = 65535
   /\ F32.gt (raw_voltage s) ADC_VREF = true
   /\ index (geophone_buffer (snd r)) = 1
   /\ buffer (geophone_buffer (snd r)) !! 0%nat = Some (velocity_m_s s)
   /\ geophone_buffer (snd r) <> geophone_buffer m)
  /\ (let m := machine_init (steady_board 10 4095 false) in
      let r := acquisition_tick 10 l m in
      let s := current_sample (snd (fst r)) in
      raw_adc s = 4095
      /\ raw_voltage s = ADC_VREF
      /\ index (geophone_buffer (snd r)) = 1
      /\ buffer (geophone_buffer (snd r)) !! 0%nat = Some (velocity_m_s s)).
Proof.
  cbv zeta. split.
  - split; [vm_compute; reflexivity|]. split; [vm_compute; reflexivity|].
    split; [vm_compute; reflexivity|]. split; [vm_compute; reflexivity|].
    intros H. apply (f_equal index) in H. vm_compute in H. discriminate H.
  - split; [vm_compute; reflexivity|]. split; [vm_compute; reflexivity|].
    split; vm_compute; reflexivity.
Qed.

(** C9, amended: an acquisition tick that is due always pushes exactly
    one value, the velocity computed from the averaged ADC reading,
    whatever that reading is; there is no failure or range check, and the
    tick always completes. *)
Theorem acquisition_always_pushes (now : Z) (l : main_locals) (m : machine) :
  (SAMPLE_PERIOD_MS <=? uint32 (now - last_sample_time l)) = true ->
  let r := acquisition_tick now l m in
  let s := eval acquire_geophone_sample m in
  fst (fst r) = true
  /\ current_sample (snd (fst r)) = s
  /\ velocity_m_s s
     = voltage_to_velocity_ms (adc_to_voltage (eval read_adc_averaged m))
  /\ geophone_buffer (snd r) = buffer_push (velocity_m_s s) (geophone_buffer m)
  /\ last_sample_time (snd (fst r)) = now.
Proof.
  intros Hdue. cbv zeta. rewrite (acquisition_tick_due now l m Hdue).
  cbn [fst snd current_sample last_sample_time].
  split; [reflexivity|]. split; [reflexivity|]. split.
  - destruct (acquire_geophone_sample_eval m) as (H1 & H2 & H3 & _).
    rewrite H3, H2, H1. reflexivity.
  - split; [|reflexivity]. rewrite acquire_geophone_sample_exec. reflexivity.
Qed.

Lemma acquisition_always_pushes_witness :
  geophone_buffer
    (snd (acquisition_tick 10 (main_locals_init sample_zero result_zero)
            (machine_init (steady_board 10 65535 false))))
  = buffer_push
      (velocity_m_s (eval acquire_geophone_sample
                          (machine_init (steady_board 10 65535 false))))
      (geophone_buffer (machine_init (steady_board 10 65535 false))).
Proof.
  exact (proj1 (proj2 (proj2 (proj2
           (acquisition_always_pushes 10
              (main_locals_init sample_zero result_zero)
              (machine_init (steady_board 10 65535 false)) eq_refl))))).
Defined.

(** C10: on a window that is not filled [run_inference] writes the label
    "insufficient_data", confidence 0 and inference time 0, and leaves
    the timestamp of the record as it was; the loop never takes that
    branch: whenever its classification fires the window is filled and
    the record gets one of the three classifier labels, and otherwise the
    record is not touched. *)
Theorem insufficient_data_unreachable (l : main_locals) (m : machine) :
  (forall r0 m0,
      filled (geophone_buffer m0) = false ->
      eval (run_inference r0) m0
      = {| label := "insufficient_data";
           confidence := F32.zero;
           inference_time_ms := 0;
           timestamp_ms := timestamp_ms r0 |}
      /\ exec (run_inference r0) m0 = m0)
  /\ (let now := uint32 (hw_clock (hw m) (clock_reads m)) in
      let ma := snd (acquisition_tick now l (set_clock_reads (S (clock_reads m)) m)) in
      let r := main_loop_body l m in
      let f := fst (fst r) in
      let l' := snd (fst r) in
      (fired_classification f = true ->
       filled (geophone_buffer ma) = true
       /\ inference l' = eval (run_inference (inference l)) ma
       /\ label (inference l') <> "insufficient_data"
       /\ timestamp_ms (inference l')
          = uint32 (hw_clock (hw ma) (S (clock_reads ma))))
      /\ (fired_classification f = false -> inference l' = inference l)).
Proof.
  split.
  - intros r0 m0 Hf. unfold run_inference, eval, exec, bind, get_machine.
    rewrite Hf. split; reflexivity.
  - cbv zeta.
    destruct (main_loop_body_inference l m) as [Hinf Hfil]. cbv zeta in Hinf, Hfil.
    split.
    + intros Hfired. rewrite Hfired in Hinf. specialize (Hfil Hfired).
      split; [exact Hfil|]. split; [exact Hinf|].
      rewrite Hinf.
      destruct (run_inference_filled (inference l) _ Hfil) as [-> _].
      cbn [label timestamp_ms]. split; [|reflexivity].
      destruct (classify_label
                  (avg_amplitude
                     (geophone_buffer
                        (snd (acquisition_tick
                                (uint32 (hw_clock (hw m) (clock_reads m))) l
                                (set_clock_reads (S (clock_reads m)) m))))))
        as [-> | [-> | ->]]; discriminate.
    + intros Hfired. rewrite Hfired in Hinf. exact Hinf.
Qed.

Lemma insufficient_data_unreachable_witness :
  eval (run_inference result_zero) (machine_init idle_board)
  = {| label := "insufficient_data"; confidence := F32.zero;
       inference_time_ms := 0; timestamp_ms := 0 |}.
Proof.
  exact (proj1 (proj1 (insufficient_data_unreachable
                         (main_locals_init sample_zero result_zero)
                         (machine_init idle_board))
                  result_zero (machine_init idle_board) eq_refl)).
Defined.

End MainLoop.

(* ====================================================================== *)
(** * Properties of the silence button *)

Section SilenceButton.

(** One poll of the button. *)
Lemma check_button_spec (m : machine) :
  let now := uint32 (hw_clock (hw m) (clock_reads m)) in
  let pin := hw_button (hw m) (button_reads m) in
  let m' := exec check_button m in
  alert_silenced m'
  = (if press_accepted pin now m then negb (alert_silenced m) else alert_silenced m)
  /\ last_press m' = (if press_accepted pin now m then now else last_press m)
  /\ toggles (events_since m m') = (if press_accepted pin now m then 1 else 0)%nat
  /\ counters m' = counters m.
Proof.
  cbv zeta. unfold press_accepted, check_button, events_since.
  destruct m as [gb te he ce sr sil lp h cr ar br lg].
  unfold exec, bind, to_ms_since_boot, gpio_get_button, get_machine.
  cbn [hw clock_reads button_reads last_press alert_silenced
       set_clock_reads set_button_reads fst snd].
  destruct (negb (hw_button h br) && (500 <? uint32 (uint32 (hw_clock h cr) - lp))).
  - destruct sil; fw_run; rewrite <- !app_assoc; cbn [app];
      rewrite drop_app_length; repeat split.
  - fw_run. rewrite drop_all. repeat split.
Qed.

(** C5, as stated, fails at exactly 500 ms: of two active reads at 1000
    and 1500 ms only the first toggles. *)
Lemma two_reads_500ms_apart_toggle_once :
  let m := machine_init (pressed_board 1000 500) in
  let m1 := exec check_button m in
  let m2 := exec check_button m1 in
  uint32 (hw_clock (hw m1) (clock_reads m1))
  - uint32 (hw_clock (hw m) (clock_reads m)) = 500
  /\ hw_button (hw m) (button_reads m) = false
  /\ hw_button (hw m1) (button_reads m1) = false
  /\ toggles (events_since m m2) = 1%nat
  /\ alert_silenced m2 = true.
Proof. vm_compute. repeat split. Qed.

(** C5, amended: a poll toggles the silence flag exactly when the pin
    reads active and more than 500 ms passed since the last accepted
    toggle, whose time it then records; so of two active reads, the first
    of which is accepted, the second toggles again exactly when it comes
    more than 500 ms after the first: at most 500 ms apart they make one
    toggle, more than 500 ms apart two. *)
Theorem debounce_refractory (m m2 : machine) :
  let now1 := uint32 (hw_clock (hw m) (clock_reads m)) in
  let pin1 := hw_button (hw m) (button_reads m) in
  let m1 := exec check_button m in
  let now2 := uint32 (hw_clock (hw m2) (clock_reads m2)) in
  let pin2 := hw_button (hw m2) (button_reads m2) in
  let m3 := exec check_button m2 in
  let n := (toggles (events_since m m1) + toggles (events_since m2 m3))%nat in
  (toggles (events_since m m1) = 1%nat
   <-> pin1 = false /\ 500 < uint32 (now1 - last_press m))
  /\ (alert_silenced m1 = negb (alert_silenced m)
      <-> pin1 = false /\ 500 < uint32 (now1 - last_press m))
  /\ (pin1 = false -> 500 < uint32 (now1 - last_press m) -> last_press m1 = now1)
  /\ (pin1 = false -> pin2 = false ->
      500 < uint32 (now1 - last_press m) ->
      last_press m2 = last_press m1 ->
      alert_silenced m2 = alert_silenced m1 ->
      (uint32 (now2 - now1) <= 500 ->
       n = 1%nat /\ alert_silenced m3 = negb (alert_silenced m))
      /\ (500 < uint32 (now2 - now1) ->
          n = 2%nat /\ alert_silenced m3 = alert_silenced m)).
Proof.
  cbv zeta.
  destruct (check_button_spec m) as (Hs1 & Hl1 & Ht1 & _).
  destruct (check_button_spec m2) as (Hs2 & Hl2 & Ht2 & _).
  cbv zeta in *. unfold press_accepted in *.
  set (now1 := uint32 (hw_clock (hw m) (clock_reads m))) in *.
  set (now2 := uint32 (hw_clock (hw m2) (clock_reads m2))) in *.
  split; [|split; [|split]].
  - rewrite Ht1.
    destruct (hw_button (hw m) (button_reads m)),
             (Z.ltb_spec 500 (uint32 (now1 - last_press m)));
      cbn [negb andb]; intuition (try congruence; try lia).
  - rewrite Hs1.
    destruct (hw_button (hw m) (button_reads m)),
             (Z.ltb_spec 500 (uint32 (now1 - last_press m)));
      cbn [negb andb]; destruct (alert_silenced m); cbn [negb];
      intuition (try congruence; try lia).
  - intros Hp Hd. rewrite Hl1, Hp. cbn [negb andb].
    destruct (Z.ltb_spec 500 (uint32 (now1 - last_press m))); [reflexivity|lia].
  - intros Hp1 Hp2 Hd Hlp Hsil.
    rewrite Hp1 in *. rewrite Hp2 in *. cbn [negb andb] in *.
    destruct (Z.ltb_spec 500 (uint32 (now1 - last_press m))); [|lia].
    rewrite Hlp, Hl1 in *. rewrite Ht1, Ht2, Hs2, Hsil, Hs1.
    split; intros Hsep.
    + destruct (Z.ltb_spec 500 (uint32 (now2 - now1))); [lia|].
      split; reflexivity.
    + destruct (Z.ltb_spec 500 (uint32 (now2 - now1))); [|lia].
      split; [reflexivity|]. apply negb_involutive.
Qed.

Lemma debounce_refractory_witness :
  (toggles (events_since (machine_init (pressed_board 1000 501))
              (exec check_button (machine_init (pressed_board 1000 501))))
   + toggles (events_since
                (exec check_button (machine_init (pressed_board 1000 501)))
                (exec check_button
                   (exec check_button (machine_init (pressed_board 1000 501))))))%nat
  = 2%nat.
Proof.
  refine (proj1 (proj2 (proj2 (proj2 (proj2
            (debounce_refractory
               (machine_init (pressed_board 1000 501))
               (exec check_button (machine_init (pressed_board 1000 501))))))
            eq_refl eq_refl _ eq_refl eq_refl) _)).
  - vm_compute. reflexivity.
  - vm_compute. reflexivity.
Defined.

End SilenceButton.

(* ====================================================================== *)
(** * Further properties: LED and buzzer patterns *)

Section Patterns.

Lemma set_io_log_same (m : machine) : set_io_log (io_log m ++ []) m = m.
Proof. destruct m. cbn. rewrite app_nil_r. reflexivity. Qed.

(** A loop whose body only emits [evs] emits them [n] times. *)
Lemma repeat_n_emits (body : M unit) (evs : list event) :
  (forall m, body m = (tt, set_io_log (io_log m ++ evs) m)) ->
  forall n m,
    repeat_n n body m
    = (tt, set_io_log (io_log m ++ concat (replicate n evs)) m).
Proof.
  intros Hb. induction n as [|n IH]; intros m.
  - cbn. rewrite set_io_log_same. reflexivity.
  - cbn [repeat_n replicate concat]. unfold bind. rewrite Hb, IH.
    cbn [io_log set_io_log]. rewrite <- app_assoc. reflexivity.
Qed.

Lemma pin_writes_app (pin : Z) (l1 l2 : list event) :
  pin_writes pin (l1 ++ l2) = pin_writes pin l1 ++ pin_writes pin l2.
Proof. unfold pin_writes. apply omap_app. Qed.


Lemma blink_events_pin (pin : Z) (n : nat) (ms : Z) :
  pin_writes pin (blink_events pin n ms) = pulses n.
Proof.
  unfold blink_events, pulses. induction n as [|n IH]; [reflexivity|].
  cbn [replicate concat]. rewrite pin_writes_app, IH.
  unfold pin_writes at 1. cbn [omap list_omap app]. rewrite Z.eqb_refl. reflexivity.
Qed.



Lemma led_blink_run (pin count ms : Z) (m : machine) :
  led_blink pin count ms m
  = (tt, set_io_log (io_log m ++ blink_events pin (Z.to_nat count) ms) m).
Proof.
  unfold led_blink, for_count, blink_events.
  apply repeat_n_emits. intros m0. unfold bind, gpio_put, sleep_ms, emit, modify.
  cbn [io_log set_io_log]. rewrite <- !app_assoc. reflexivity.
Qed.


Lemma buzzer_beep_run (count ms : Z) (m : machine) :
  buzzer_beep count ms m
  = if alert_silenced m then (tt, m) else led_blink BUZZER_PIN count ms m.
Proof.
  unfold buzzer_beep, bind, get_machine.
  destruct (alert_silenced m); reflexivity.
Qed.

(** X2: [buzzer_beep] is a no-op when the alert is silenced (nothing is
    written or slept, the machine is unchanged), and otherwise behaves as
    [led_blink] on the buzzer pin. *)
Theorem buzzer_beep_gated (count duration_ms : Z) (m : machine) :
  (alert_silenced m = true -> exec (buzzer_beep count duration_ms) m = m)
  /\ (alert_silenced m = false ->
      exec (buzzer_beep count duration_ms) m
      = exec (led_blink BUZZER_PIN count duration_ms) m
      /\ pin_writes BUZZER_PIN
           (events_since m (exec (buzzer_beep count duration_ms) m))
         = pulses (Z.to_nat count)).
Proof.
  unfold exec. rewrite buzzer_beep_run. split; intros Hs; rewrite Hs.
  - reflexivity.
  - split; [reflexivity|]. rewrite led_blink_run. cbn [snd].
    unfold events_since. cbn [io_log set_io_log].
    rewrite drop_app_length. apply blink_events_pin.
Qed.

Lemma alert_runs (m : machine) :
  exec alert_low_confidence m
  = set_io_log (io_log m ++ blink_events LED_STATUS 2 200) m
  /\ exec alert_high_confidence m
     = set_io_log
         (io_log m ++ blink_events LED_ALERT 5 100
          ++ (if alert_silenced m then [] else blink_events BUZZER_PIN 3 150)) m
  /\ exec alert_critical m
     = set_io_log
         (io_log m ++ blink_events LED_ALERT 10 50
          ++ (if alert_silenced m then [] else blink_events BUZZER_PIN 5 100)
          ++ [GpioPut LED_ALERT true]) m.
Proof.
  unfold alert_low_confidence, alert_high_confidence, alert_critical.
  unfold exec, bind, gpio_put, emit, modify.
  rewrite !led_blink_run, !buzzer_beep_run. cbn [alert_silenced set_io_log].
  destruct (alert_silenced m); rewrite ?led_blink_run;
    cbn [snd io_log set_io_log]; rewrite <- ?app_assoc, ?app_nil_r;
    repeat split.
Qed.

(** X3: what each alert routine does to the board, whatever the state:
    the low-confidence alert pulses the status LED twice and writes
    neither the alert LED nor the buzzer; the high-confidence alert pulses
    the alert LED five times and leaves it off; the critical alert pulses
    it ten times and leaves it on; the buzzer sounds (three and five
    beeps) only when the alert is not silenced.  The routines block for
    800 ms, 1000 or 1900 ms, and 1000 or 2000 ms. *)
Theorem alert_patterns (m : machine) :
  let lo := events_since m (exec alert_low_confidence m) in
  let hi := events_since m (exec alert_high_confidence m) in
  let cr := events_since m (exec alert_critical m) in
  (pin_writes LED_STATUS lo = pulses 2
   /\ pin_writes LED_ALERT lo = [] /\ pin_writes BUZZER_PIN lo = []
   /\ slept lo = 800)
  /\ (pin_writes LED_ALERT hi = pulses 5
      /\ pin_writes BUZZER_PIN hi = (if alert_silenced m then [] else pulses 3)
      /\ slept hi = (if alert_silenced m then 1000 else 1900))
  /\ (pin_writes LED_ALERT cr = pulses 10 ++ [true]
      /\ pin_writes BUZZER_PIN cr = (if alert_silenced m then [] else pulses 5)
      /\ slept cr = (if alert_silenced m then 1000 else 2000)).
Proof.
  cbv zeta. destruct (alert_runs m) as (-> & -> & ->).
  unfold events_since. cbn [io_log set_io_log]. rewrite !drop_app_length.
  destruct (alert_silenced m); repeat split; reflexivity.
Qed.

End Patterns.

(* ====================================================================== *)
(** * Further properties: the ADC path *)

Section AdcPath.

Lemma adc_readings_S (m : machine) (n : nat) :
  adc_readings m (S n)
  = uint16 (hw_adc (hw m) (adc_reads m))
    :: adc_readings (set_adc_reads (S (adc_reads m)) m) n.
Proof.
  unfold adc_readings. cbn [seq map hw adc_reads set_adc_reads].
  rewrite Nat.add_0_r. f_equal.
  rewrite <- seq_shift, map_map. apply map_ext. intros i.
  f_equal. f_equal. lia.
Qed.

Lemma uint16_range (z : Z) : 0 <= uint16 z <= 65535.
Proof. unfold uint16. pose proof (Z.mod_pos_bound z (2 ^ 16)). lia. Qed.

Lemma adc_readings_range (m : machine) (n : nat) :
  Forall (fun v => 0 <= v <= 65535) (adc_readings m n).
Proof.
  unfold adc_readings. apply Forall_forall. intros v Hv.
  apply list_elem_of_In, in_map_iff in Hv. destruct Hv as (i & <- & _).
  apply uint16_range.
Qed.

(** The summing loop does not wrap as long as the total fits 32 bits. *)
Lemma adc_sum_eval (n : nat) :
  forall (sum : Z) (m : machine),
    0 <= sum -> sum + 65535 * Z.of_nat n < 2 ^ 32 ->
    eval (adc_sum n sum) m = sum + sumZ (adc_readings m n).
Proof.
  induction n as [|n IH]; intros sum m H0 Hb.
  - cbn. lia.
  - cbn [adc_sum]. rewrite eval_bind.
    change (eval adc_read m) with (uint16 (hw_adc (hw m) (adc_reads m))).
    change (exec adc_read m) with (set_adc_reads (S (adc_reads m)) m).
    pose proof (uint16_range (hw_adc (hw m) (adc_reads m))) as Hv.
    assert (Hu : uint32 (sum + uint16 (hw_adc (hw m) (adc_reads m)))
                 = sum + uint16 (hw_adc (hw m) (adc_reads m))).
    { unfold uint32. apply Z.mod_small. lia. }
    rewrite Hu, IH by lia. rewrite adc_readings_S. unfold sumZ. cbn [foldr]. lia.
Qed.

Lemma sumZ_bounds (lo hi : Z) (l : list Z) :
  Forall (fun v => lo <= v <= hi) l ->
  lo * Z.of_nat (length l) <= sumZ l <= hi * Z.of_nat (length l).
Proof.
  induction 1 as [|v l Hv _ IH]; [cbn; lia|].
  unfold sumZ in *. cbn [foldr length]. lia.
Qed.

Lemma adc_readings_length (m : machine) (n : nat) : length (adc_readings m n) = n.
Proof. unfold adc_readings. rewrite length_map, length_seq. reflexivity. Qed.

Lemma read_adc_averaged_spec (m : machine) :
  let vals := adc_readings m (Z.to_nat ADC_SAMPLES) in
  let avg := eval read_adc_averaged m in
  avg = sumZ vals / ADC_SAMPLES
  /\ 0 <= avg <= 65535
  /\ (forall lo hi, Forall (fun v => lo <= v <= hi) vals -> lo <= avg <= hi).
Proof.
  cbv zeta. unfold read_adc_averaged. rewrite eval_bind, eval_ret.
  rewrite adc_sum_eval by (unfold ADC_SAMPLES; cbn; lia).
  rewrite Z.add_0_l.
  assert (Hb : forall lo hi,
             Forall (fun v => lo <= v <= hi) (adc_readings m (Z.to_nat ADC_SAMPLES)) ->
             lo <= sumZ (adc_readings m (Z.to_nat ADC_SAMPLES)) / ADC_SAMPLES <= hi).
  { intros lo hi HF. apply sumZ_bounds in HF.
    rewrite adc_readings_length in HF. unfold ADC_SAMPLES in *.
    change (Z.of_nat (Z.to_nat 64)) with 64 in HF.
    split.
    - apply Z.div_le_lower_bound; lia.
    - apply Z.div_le_upper_bound; lia. }
  split; [reflexivity|]. split; [|exact Hb].
  apply Hb, adc_readings_range.
Qed.

(** X4: [read_adc_averaged] returns the floor of the mean of the next 64
    ADC readings, without any wrap of its 32-bit sum; the result is a
    16-bit value and lies between any bounds that hold for all 64
    readings (so 12-bit readings give a 12-bit mean, and a constant
    reading is returned as it is). *)
Theorem read_adc_averaged_mean (m : machine) :
  let vals := adc_readings m (Z.to_nat ADC_SAMPLES) in
  let avg := eval read_adc_averaged m in
  avg = sumZ vals / ADC_SAMPLES
  /\ 0 <= avg <= 65535
  /\ (forall lo hi, Forall (fun v => lo <= v <= hi) vals -> lo <= avg <= hi).
Proof. exact (read_adc_averaged_spec m). Qed.

(** A check that holds, by computation, for every number below [n]. *)
Lemma forall_below (P : Z -> bool) (n : nat) :
  forallb (fun i => P (Z.of_nat i)) (seq 0 n) = true ->
  forall z, 0 <= z < Z.of_nat n -> P z = true.
Proof.
  intros Hall z Hz. rewrite forallb_forall in Hall.
  specialize (Hall (Z.to_nat z)). rewrite Z2Nat.id in Hall by lia.
  apply Hall, in_seq. lia.
Qed.

(** X5: on the 12-bit range of the ADC, [adc_to_voltage] is strictly
    increasing from [0.0f] at 0 to exactly [ADC_VREF] at 4095, so every
    voltage lies in [[0, ADC_VREF]]. *)
Theorem adc_to_voltage_12bit (adc : Z) :
  0 <= adc <= 4095 ->
  F32.ge (adc_to_voltage adc) F32.zero = true
  /\ F32.ge ADC_VREF (adc_to_voltage adc) = true
  /\ (adc < 4095 -> F32.gt (adc_to_voltage (adc + 1)) (adc_to_voltage adc) = true)
  /\ adc_to_voltage 0 = F32.zero
  /\ adc_to_voltage 4095 = ADC_VREF.
Proof.
  intros Hadc.
  pose (P := fun z =>
          F32.ge (adc_to_voltage z) F32.zero
          && F32.ge ADC_VREF (adc_to_voltage z)
          && (if z <? 4095
              then F32.gt (adc_to_voltage (z + 1)) (adc_to_voltage z)
              else true)).
  assert (Hall : forallb (fun i => P (Z.of_nat i)) (seq 0 4096) = true)
    by (vm_compute; reflexivity).
  pose proof (forall_below P 4096 Hall adc ltac:(lia)) as HP.
  unfold P in HP. apply andb_prop in HP. destruct HP as [HP H3].
  apply andb_prop in HP. destruct HP as [H1 H2].
  split; [exact H1|]. split; [exact H2|]. split.
  - intros Hlt. destruct (Z.ltb_spec adc 4095); [exact H3|lia].
  - split; vm_compute; reflexivity.
Qed.

Lemma adc_to_voltage_12bit_witness :
  F32.ge ADC_VREF (adc_to_voltage 2048) = true.
Proof.
  exact (proj1 (proj2 (adc_to_voltage_12bit 2048 ltac:(lia)))).
Defined.

Lemma velocity_12bit_spec (adc : Z) :
  0 <= adc <= 4095 ->
  let v := voltage_to_velocity_ms (adc_to_voltage adc) in
  F32.ge (voltage_to_velocity_ms ADC_VREF) (F32.fabsf v) = true
  /\ F32.gt (F32.dec 58 1000) (voltage_to_velocity_ms ADC_VREF) = true
  /\ (adc <= 2047 -> F32.gt F32.zero v = true)
  /\ (2048 <= adc -> F32.gt v F32.zero = true).
Proof.
  intros Hadc. cbv zeta.
  pose (P := fun z =>
          F32.ge (voltage_to_velocity_ms ADC_VREF)
                 (F32.fabsf (voltage_to_velocity_ms (adc_to_voltage z)))
          && (if z <=? 2047
              then F32.gt F32.zero (voltage_to_velocity_ms (adc_to_voltage z))
              else F32.gt (voltage_to_velocity_ms (adc_to_voltage z)) F32.zero)).
  assert (Hall : forallb (fun i => P (Z.of_nat i)) (seq 0 4096) = true)
    by (vm_compute; reflexivity).
  pose proof (forall_below P 4096 Hall adc ltac:(lia)) as HP.
  unfold P in HP. apply andb_prop in HP. destruct HP as [H1 H2].
  split; [exact H1|]. split; [vm_compute; reflexivity|].
  split; intros Hc; destruct (Z.leb_spec adc 2047); try lia; exact H2.
Qed.

(** X6: on the 12-bit range the velocity is a number centred at
    mid-scale: negative for readings up to 2047, positive from 2048 on,
    and of magnitude at most the velocity at [ADC_VREF], which is below
    0.058 m/s. *)
Theorem velocity_12bit (adc : Z) :
  0 <= adc <= 4095 ->
  let v := voltage_to_velocity_ms (adc_to_voltage adc) in
  F32.ge (voltage_to_velocity_ms ADC_VREF) (F32.fabsf v) = true
  /\ F32.gt (F32.dec 58 1000) (voltage_to_velocity_ms ADC_VREF) = true
  /\ (adc <= 2047 -> F32.gt F32.zero v = true)
  /\ (2048 <= adc -> F32.gt v F32.zero = true).
Proof. exact (velocity_12bit_spec adc). Qed.

Lemma velocity_12bit_witness :
  F32.gt (voltage_to_velocity_ms (adc_to_voltage 2048)) F32.zero = true.
Proof.
  exact (proj2 (proj2 (proj2 (velocity_12bit 2048 ltac:(lia)))) ltac:(lia)).
Defined.

(** X7: [acquire_geophone_sample] consumes 64 ADC readings and then one
    clock value and touches nothing else (no global, no output); the
    sample it returns holds the averaged reading, its voltage, velocity
    and velocity in mm/s, and the clock value as timestamp; if all 64
    readings are 12-bit values, the velocity is within the bound of X6. *)
Theorem acquire_geophone_sample_frame (m : machine) :
  let s := eval acquire_geophone_sample m in
  let m' := exec acquire_geophone_sample m in
  m' = set_clock_reads (S (clock_reads m))
         (set_adc_reads (adc_reads m + Z.to_nat ADC_SAMPLES) m)
  /\ events_since m m' = []
  /\ raw_adc s = sumZ (adc_readings m (Z.to_nat ADC_SAMPLES)) / ADC_SAMPLES
  /\ raw_voltage s = adc_to_voltage (raw_adc s)
  /\ velocity_m_s s = voltage_to_velocity_ms (raw_voltage s)
  /\ velocity_mm_s s = F32.mul (velocity_m_s s) F32.c_1000_0
  /\ sample_timestamp_ms s
     = uint32 (hw_clock (hw m) (clock_reads m))
  /\ (Forall (fun v => 0 <= v <= 4095) (adc_readings m (Z.to_nat ADC_SAMPLES)) ->
      F32.ge (voltage_to_velocity_ms ADC_VREF) (F32.fabsf (velocity_m_s s)) = true).
Proof.
  cbv zeta.
  destruct (acquire_geophone_sample_eval m) as (H1 & H2 & H3 & H4).
  destruct (read_adc_averaged_spec m) as (Hm & _ & Hb). cbv zeta in Hm, Hb.
  rewrite acquire_geophone_sample_exec.
  split; [reflexivity|]. split.
  { unfold events_since. cbn [io_log set_clock_reads set_adc_reads]. apply drop_all. }
  split; [rewrite H1; exact Hm|]. split; [exact H2|]. split; [exact H3|].
  split; [exact H4|]. split.
  - unfold acquire_geophone_sample. rewrite !eval_bind, eval_ret.
    cbn [sample_timestamp_ms]. unfold read_adc_averaged.
    rewrite exec_bind, exec_ret, adc_sum_exec. reflexivity.
  - intros HF. rewrite H3, H2, H1.
    exact (proj1 (velocity_12bit_spec _ (Hb 0 4095 HF))).
Qed.

Lemma acquire_geophone_sample_frame_witness :
  F32.ge (voltage_to_velocity_ms ADC_VREF)
         (F32.fabsf (velocity_m_s
                       (eval acquire_geophone_sample
                             (machine_init (steady_board 10 4095 false)))))
  = true.
Proof.
  refine (proj2 (proj2 (proj2 (proj2 (proj2 (proj2 (proj2
            (acquire_geophone_sample_frame
               (machine_init (steady_board 10 4095 false))))))))) _).
  apply Forall_forall. intros v Hv.
  apply list_elem_of_In, in_map_iff in Hv. destruct Hv as (i & <- & _).
  vm_compute. split; discriminate.
Defined.

End AdcPath.

(* ====================================================================== *)
(** * Further properties: the window and the classifier *)

Section WindowContents.

(** X8: during warm-up the window is the pushed values in order followed
    by the zeros of the initialisation: after [k <= WINDOW_SIZE] pushes
    the array is [vs ++ 0 ... 0], and after exactly [WINDOW_SIZE] pushes
    it is [vs]. *)
Theorem warm_up_contents (h : hardware) (vs : list float32) :
  Z.of_nat (length vs) <= WINDOW_SIZE ->
  buffer (geophone_buffer (exec (add_samples vs) (machine_init h)))
  = vs ++ replicate (Z.to_nat WINDOW_SIZE - length vs) F32.zero.
Proof.
  intros Hk. rewrite window_after_pushes.
  destruct (pushes_inv vs) as [_ _ Hlen Hslots].
  apply list_eq. intros j.
  destruct (Nat.lt_ge_cases j (Z.to_nat WINDOW_SIZE)) as [Hj|Hj].
  - replace j with (Z.to_nat (Z.of_nat j)) at 1 by lia.
    rewrite Hslots by lia. unfold slot_after.
    destruct (Z.eq_dec (Z.of_nat (length vs)) WINDOW_SIZE) as [He|Hne].
    + rewrite He. change (WINDOW_SIZE mod WINDOW_SIZE) with 0.
      destruct (Z.ltb_spec (Z.of_nat j) 0); [lia|].
      change (WINDOW_SIZE <=? WINDOW_SIZE) with true. cbv iota.
      rewrite lookup_app_l by lia. f_equal. lia.
    + rewrite (Z.mod_small (Z.of_nat (length vs)) WINDOW_SIZE) by lia.
      destruct (Z.ltb_spec (Z.of_nat j) (Z.of_nat (length vs))).
      * rewrite lookup_app_l by lia. f_equal. lia.
      * destruct (Z.leb_spec WINDOW_SIZE (Z.of_nat (length vs))); [lia|].
        rewrite lookup_app_r by lia. symmetry. apply lookup_replicate_2. lia.
  - rewrite !lookup_ge_None_2; [reflexivity| |lia].
    rewrite length_app, length_replicate. lia.
Qed.

Lemma warm_up_contents_witness :
  buffer (geophone_buffer (exec (add_samples (ramp 3)) (machine_init idle_board)))
  = ramp 3 ++ replicate (Z.to_nat WINDOW_SIZE - length (ramp 3)) F32.zero.
Proof.
  apply (warm_up_contents idle_board (ramp 3)). vm_compute. discriminate.
Defined.

Lemma sum_abs_from_opp (w : list float32) (acc : float32) :
  fold_left (fun a x => F32.add a (F32.fabsf x)) (map SFopp w) acc
  = fold_left (fun a x => F32.add a (F32.fabsf x)) w acc.
Proof.
  revert acc. induction w as [|x w IH]; intros acc; [reflexivity|].
  cbn [map fold_left]. rewrite IH. f_equal. f_equal. destruct x; reflexivity.
Qed.

(** X9: the classifier does not see the polarity of the samples:
    reversing the sign of every sample of the window changes neither the
    mean amplitude nor the result of [run_inference]. *)
Theorem polarity_is_ignored (r0 : inference_result_t) (m : machine) :
  let m' := set_geophone_buffer (flip_polarity (geophone_buffer m)) m in
  avg_amplitude (geophone_buffer m') = avg_amplitude (geophone_buffer m)
  /\ eval (run_inference r0) m' = eval (run_inference r0) m.
Proof.
  cbv zeta.
  assert (Ha : avg_amplitude (flip_polarity (geophone_buffer m))
               = avg_amplitude (geophone_buffer m)).
  { unfold avg_amplitude, window_read, flip_polarity, sum_abs. cbn [buffer].
    change (map SFopp (buffer (geophone_buffer m)))
      with (SFopp <$> buffer (geophone_buffer m)).
    rewrite <- fmap_take.
    change (SFopp <$> take (Z.to_nat WINDOW_SIZE) (buffer (geophone_buffer m)))
      with (map SFopp (take (Z.to_nat WINDOW_SIZE) (buffer (geophone_buffer m)))).
    rewrite sum_abs_from_opp. reflexivity. }
  split; [exact Ha|].
  unfold run_inference, eval, bind, get_machine, to_ms_since_boot.
  cbn [geophone_buffer set_geophone_buffer flip_polarity filled hw clock_reads
       set_clock_reads].
  rewrite Ha. destruct (filled (geophone_buffer m)); cbn [negb]; [|reflexivity].
  destruct (classify (avg_amplitude (geophone_buffer m))). reflexivity.
Qed.

Lemma add_nan_r (x : float32) : F32.add x S754_nan = S754_nan.
Proof. destruct x; reflexivity. Qed.

Lemma sum_abs_nan (w : list float32) :
  fold_left (fun a x => F32.add a (F32.fabsf x)) w S754_nan = S754_nan.
Proof. induction w as [|x w IH]; [reflexivity|]. exact IH. Qed.

(** X10: a NaN anywhere in a filled window makes the mean amplitude a
    NaN, which fails both band comparisons: the result is "noise" with
    confidence [0.95f], and processing it does nothing.  One poisoned
    sample thus mutes the detection for as long as it is in the window. *)
Theorem nan_sample_reads_as_noise (r0 : inference_result_t) (m : machine) :
  filled (geophone_buffer m) = true ->
  In S754_nan (window_read (geophone_buffer m)) ->
  let r := eval (run_inference r0) m in
  let m' := exec (run_inference r0) m in
  label r = "noise"
  /\ confidence r = F32.c_0_95
  /\ exec (process_inference_result r) m' = m'.
Proof.
  intros Hf Hin. cbv zeta.
  destruct (run_inference_filled r0 m Hf) as [-> _].
  assert (Havg : avg_amplitude (geophone_buffer m) = S754_nan).
  { unfold avg_amplitude, sum_abs.
    apply in_split in Hin. destruct Hin as (w1 & w2 & ->).
    rewrite fold_left_app. cbn [fold_left F32.fabsf SFabs].
    change (F32.fabsf S754_nan) with S754_nan.
    rewrite add_nan_r, sum_abs_nan. reflexivity. }
  rewrite Havg. cbn [label confidence].
  split; [reflexivity|]. split; [reflexivity|].
  unfold process_inference_result. reflexivity.
Qed.

Lemma nan_sample_reads_as_noise_witness :
  label (eval (run_inference result_zero) (steady_machine S754_nan)) = "noise".
Proof.
  refine (proj1 (nan_sample_reads_as_noise result_zero (steady_machine S754_nan)
                   eq_refl _)).
  vm_compute. left. reflexivity.
Defined.

End WindowContents.

(* ====================================================================== *)
(** * Further properties: counters, status report and button *)

Section Reporting.

Lemma uint32_range (z : Z) : 0 <= uint32 z < 2 ^ 32.
Proof. unfold uint32. apply Z.mod_pos_bound. reflexivity. Qed.

Lemma uint32_add_l (a b : Z) : uint32 (uint32 a + b) = uint32 (a + b).
Proof. unfold uint32. apply Zplus_mod_idemp_l. Qed.

Lemma count_results_cons (p : inference_result_t -> bool) r rs :
  count_results p (r :: rs) = (if p r then 1 else 0) + count_results p rs.
Proof.
  unfold count_results. cbn [List.filter]. destruct (p r); cbn [length]; lia.
Qed.

Lemma count_results_nonneg (p : inference_result_t -> bool) rs :
  0 <= count_results p rs.
Proof. unfold count_results. lia. Qed.

Lemma process_all_counters (rs : list inference_result_t) :
  forall m,
    counters_in_range m ->
    counters (exec (process_all rs) m)
    = (uint32 (total_events m + count_results is_event rs),
       uint32 (high_confidence_events m + count_results is_elevated rs),
       uint32 (critical_events m + count_results is_critical rs)).
Proof.
  induction rs as [|r rs IH]; intros m (H1 & H2 & H3).
  - unfold counters, count_results. cbn [process_all List.filter length].
    change (exec (ret tt) m) with m. rewrite !Z.add_0_r.
    unfold uint32. rewrite !Z.mod_small by lia. reflexivity.
  - cbn [process_all]. rewrite exec_bind.
    rewrite !count_results_cons.
    destruct (strcmp_eq0 (label r) "noise") eqn:Hl.
    + assert (Hm : exec (process_inference_result r) m = m).
      { unfold process_inference_result. rewrite Hl. reflexivity. }
      replace (is_event r) with false by (unfold is_event; rewrite Hl; reflexivity).
      replace (is_elevated r) with false
        by (unfold is_elevated, is_event; rewrite Hl; reflexivity).
      replace (is_critical r) with false
        by (unfold is_critical, is_event; rewrite Hl; reflexivity).
      rewrite Hm, IH by (repeat split; lia). reflexivity.
    + destruct (process_event_counters r m Hl) as (Ht & Hc & Hh).
      cbv zeta in Ht, Hc, Hh.
      replace (is_event r) with true by (unfold is_event; rewrite Hl; reflexivity).
      replace (is_critical r) with (F32.ge (confidence r) F32.c_0_95)
        by (unfold is_critical, is_event; rewrite Hl; reflexivity).
      replace (is_elevated r)
        with (negb (F32.ge (confidence r) F32.c_0_95)
              && F32.ge (confidence r) F32.c_0_85)
        by (unfold is_elevated, is_event; rewrite Hl; reflexivity).
      rewrite IH.
      * rewrite Ht, Hc, Hh.
        destruct (F32.ge (confidence r) F32.c_0_95);
          [|destruct (F32.ge (confidence r) F32.c_0_85)];
          cbn [negb andb]; rewrite ?uint32_add_l, ?Z.add_0_l;
          repeat match goal with
                 | |- (_, _) = (_, _) => f_equal
                 | |- uint32 _ = uint32 _ => apply (f_equal uint32); lia
                 end.
      * unfold counters_in_range. rewrite Ht, Hc, Hh.
        split; [apply uint32_range|].
        destruct (F32.ge (confidence r) F32.c_0_95);
          [|destruct (F32.ge (confidence r) F32.c_0_85)];
          split; try apply uint32_range; lia.
Qed.

Lemma tiers_partition (rs : list inference_result_t) :
  count_results is_elevated rs + count_results is_critical rs
  <= count_results is_event rs.
Proof.
  induction rs as [|r rs IH]; [reflexivity|].
  rewrite !count_results_cons.
  assert (Hr : (if is_elevated r then 1 else 0) + (if is_critical r then 1 else 0)
               <= (if is_event r then 1 else 0)).
  { unfold is_elevated, is_critical.
    destruct (is_event r), (F32.ge (confidence r) F32.c_0_95),
      (F32.ge (confidence r) F32.c_0_85); cbn [negb andb]; lia. }
  lia.
Qed.

(** X11: over any sequence of processed results the counters tally the
    tiers, modulo 2^32: [total_events] grows by the number of non-noise
    results, [critical_events] by those with confidence [>= 0.95f],
    [high_confidence_events] by those in [[0.85f, 0.95f)]; the two tiers
    are disjoint, so from zeroed counters and fewer than 2^32 results
    [high_confidence_events + critical_events <= total_events]. *)
Theorem counters_tally (rs : list inference_result_t) (m : machine) :
  counters_in_range m ->
  let m' := exec (process_all rs) m in
  counters m'
  = (uint32 (total_events m + count_results is_event rs),
     uint32 (high_confidence_events m + count_results is_elevated rs),
     uint32 (critical_events m + count_results is_critical rs))
  /\ count_results is_elevated rs + count_results is_critical rs
     <= count_results is_event rs
  /\ (counters m = (0, 0, 0) -> Z.of_nat (length rs) < 2 ^ 32 ->
      total_events m' = count_results is_event rs
      /\ high_confidence_events m' + critical_events m' <= total_events m').
Proof.
  intros Hr. cbv zeta.
  pose proof (process_all_counters rs m Hr) as Hc.
  pose proof (tiers_partition rs) as Hp.
  split; [exact Hc|]. split; [exact Hp|].
  intros H0 Hlen. unfold counters in Hc, H0.
  injection Hc as Ht Hh Hcr. injection H0 as T0 Hh0 Hc0.
  rewrite Ht, Hh, Hcr, T0, Hh0, Hc0, !Z.add_0_l.
  assert (Hle : count_results is_event rs <= Z.of_nat (length rs)).
  { unfold count_results. apply inj_le, filter_length_le. }
  pose proof (count_results_nonneg is_event rs).
  pose proof (count_results_nonneg is_elevated rs).
  pose proof (count_results_nonneg is_critical rs).
  unfold uint32. rewrite !Z.mod_small by lia. lia.
Qed.

Lemma counters_tally_witness :
  counters (exec (process_all
                    [ {| label := "earthquake"; confidence := F32.c_0_98;
                         inference_time_ms := 0; timestamp_ms := 0 |};
                      {| label := "noise"; confidence := F32.c_0_95;
                         inference_time_ms := 0; timestamp_ms := 0 |};
                      {| label := "tremor"; confidence := F32.c_0_85;
                         inference_time_ms := 0; timestamp_ms := 0 |} ])
                 (machine_init idle_board))
  = (2, 1, 1).
Proof.
  refine (proj1 (counters_tally _ (machine_init idle_board) _)).
  unfold counters_in_range. cbn. lia.
Defined.

Lemma printf_only_pin_writes (pin : Z) (evs : list event) :
  forallb is_printf evs = true -> pin_writes pin evs = [] /\ slept evs = 0.
Proof.
  induction evs as [|e evs IH]; [split; reflexivity|].
  cbn [forallb]. intros H. apply andb_prop in H. destruct H as [He Hr].
  destruct (IH Hr) as [IH1 IH2].
  destruct e; try discriminate He.
  unfold pin_writes, slept in *. cbn [omap list_omap foldr]. split; assumption.
Qed.

Lemma print_system_status_run (m : machine) :
  exists evs,
    exec print_system_status m = set_io_log (io_log m ++ evs) m
    /\ length evs = 10%nat
    /\ forallb is_printf evs = true
    /\ (forall pin, pin_writes pin evs = [])
    /\ slept evs = 0
    /\ printf_args evs
       = [ArgStr (if system_ready m then "✓ Active    " else "✗ Inactive  ");
          ArgStr (if filled (geophone_buffer m) then "✓ Ready     " else "○ Filling   ");
          ArgUInt (total_events m);
          ArgUInt (high_confidence_events m);
          ArgUInt (critical_events m);
          ArgStr (if alert_silenced m then "Silenced    " else "Enabled     ")].
Proof.
  destruct m as [gb te he ce sr sil lp h cr ar br lg].
  eexists. split.
  - unfold print_system_status.
    fw_run. rewrite <- !app_assoc. cbn [app]. reflexivity.
  - split; [reflexivity|]. split; [reflexivity|].
    split; [intros pin; reflexivity|]. split; reflexivity.
Qed.

(** X12: [print_system_status] is read-only: it leaves every global as it
    is and only prints ten lines (no pin is written, nothing is slept);
    the values it prints are the current ready flag, window state, the
    three counters and the silence state, in that order. *)
Theorem print_system_status_read_only (m : machine) :
  exists evs,
    exec print_system_status m = set_io_log (io_log m ++ evs) m
    /\ length evs = 10%nat
    /\ forallb is_printf evs = true
    /\ (forall pin, pin_writes pin evs = [])
    /\ slept evs = 0
    /\ printf_args evs
       = [ArgStr (if system_ready m then "✓ Active    " else "✗ Inactive  ");
          ArgStr (if filled (geophone_buffer m) then "✓ Ready     " else "○ Filling   ");
          ArgUInt (total_events m);
          ArgUInt (high_confidence_events m);
          ArgUInt (critical_events m);
          ArgStr (if alert_silenced m then "Silenced    " else "Enabled     ")].
Proof. exact (print_system_status_run m). Qed.

Lemma elapsed_mod (a d : Z) : uint32 (uint32 (a + d) - a) = uint32 d.
Proof.
  unfold uint32. rewrite Zminus_mod_idemp_l. f_equal. lia.
Qed.

Lemma check_button_idle (m : machine) :
  press_accepted (hw_button (hw m) (button_reads m))
                 (uint32 (hw_clock (hw m) (clock_reads m))) m = false ->
  exec check_button m
  = set_button_reads (S (button_reads m)) (set_clock_reads (S (clock_reads m)) m).
Proof.
  unfold press_accepted, check_button, exec, bind, to_ms_since_boot,
    gpio_get_button, get_machine.
  cbn [hw clock_reads button_reads last_press set_clock_reads set_button_reads
       fst snd].
  intros ->. reflexivity.
Qed.

(** X13: what a poll of the button does to the board.  A poll that is not
    accepted (pin released, or pressed within the refractory time) only
    consumes one clock and one pin reading.  An accepted one switches the
    alert LED off, blinks the built-in LED once when it turns the silence
    on and three times when it turns it off (blocking 200 or 600 ms),
    never sounds the buzzer, and leaves counters and window alone. *)
Theorem check_button_effects (m : machine) :
  let now := uint32 (hw_clock (hw m) (clock_reads m)) in
  let pin := hw_button (hw m) (button_reads m) in
  let m' := exec check_button m in
  let evs := events_since m m' in
  (press_accepted pin now m = false ->
   m' = set_button_reads (S (button_reads m))
          (set_clock_reads (S (clock_reads m)) m))
  /\ (pin = true -> press_accepted pin now m = false)
  /\ (press_accepted pin now m = true ->
      pin_writes LED_ALERT evs = [false]
      /\ pin_writes LED_BUILTIN evs = pulses (if alert_silenced m then 3 else 1)
      /\ pin_writes BUZZER_PIN evs = []
      /\ slept evs = (if alert_silenced m then 600 else 200)
      /\ counters m' = counters m
      /\ geophone_buffer m' = geophone_buffer m).
Proof.
  cbv zeta. split; [apply check_button_idle|]. split.
  { intros ->. reflexivity. }
  unfold press_accepted, check_button, events_since.
  destruct m as [gb te he ce sr sil lp h cr ar br lg].
  unfold exec, bind, to_ms_since_boot, gpio_get_button, get_machine.
  cbn [hw clock_reads button_reads last_press alert_silenced
       set_clock_reads set_button_reads fst snd].
  intros ->.
  destruct sil; fw_run; rewrite <- !app_assoc; cbn [app];
    rewrite drop_app_length; repeat split.
Qed.

Lemma check_button_effects_witness :
  pin_writes LED_ALERT
    (events_since (machine_init (pressed_board 1000 501))
       (exec check_button (machine_init (pressed_board 1000 501))))
  = [false].
Proof.
  exact (proj1 (proj2 (proj2 (check_button_effects
                                (machine_init (pressed_board 1000 501))))
                  eq_refl)).
Defined.

(** X14: the debounce measures elapsed time modulo 2^32, so it is not
    disturbed by the wrap of the millisecond clock: if [d] milliseconds
    ([0 <= d < 2^32]) passed since the last accepted press, a poll that
    reads the pin active toggles the silence flag exactly when
    [d > 500]. *)
Theorem debounce_across_clock_wrap (m : machine) (d : Z) :
  0 <= d < 2 ^ 32 ->
  uint32 (hw_clock (hw m) (clock_reads m)) = uint32 (last_press m + d) ->
  hw_button (hw m) (button_reads m) = false ->
  let m' := exec check_button m in
  (alert_silenced m' = negb (alert_silenced m) <-> 500 < d)
  /\ (500 < d -> last_press m' = uint32 (last_press m + d))
  /\ (d <= 500 -> last_press m' = last_press m).
Proof.
  intros Hd Hnow Hpin. cbv zeta.
  destruct (check_button_spec m) as (Hs & Hl & _ & _). cbv zeta in Hs, Hl.
  unfold press_accepted in Hs, Hl.
  rewrite Hpin, Hnow, elapsed_mod in Hs, Hl. cbn [negb andb] in Hs, Hl.
  assert (Hu : uint32 d = d) by (unfold uint32; apply Z.mod_small; lia).
  rewrite Hu in Hs, Hl. rewrite Hs, Hl.
  destruct (Z.ltb_spec 500 d) as [Hgt|Hle].
  - split; [split; [intros _; exact Hgt|intros _; reflexivity]|].
    split; [intros _; reflexivity|intros Hx; lia].
  - split; [split; [|intros Hx; lia]|].
    + intros Hx. destruct (alert_silenced m); discriminate Hx.
    + split; [intros Hx; lia|intros _; reflexivity].
Qed.

Lemma debounce_across_clock_wrap_witness :
  alert_silenced
    (exec check_button
       (set_last_press (2 ^ 32 - 100) (machine_init (pressed_board 500 0))))
  = true.
Proof.
  refine (proj2 (proj1 (debounce_across_clock_wrap
                          (set_last_press (2 ^ 32 - 100)
                             (machine_init (pressed_board 500 0)))
                          600 _ _ _)) _).
  - lia.
  - vm_compute. reflexivity.
  - reflexivity.
  - lia.
Defined.

(** X20: what processing a non-noise result does to the board, by tier:
    an advisory pulses the status LED twice (800 ms); an elevated result
    pulses the alert LED five times (1000 ms, 1900 ms with the buzzer); a
    critical one pulses it ten times and latches it on (1000 ms, 2000 ms
    with the buzzer); the buzzer sounds only when not silenced.  The
    silence flag, the debounce time and the window are left alone. *)
Theorem alert_by_tier (r : inference_result_t) (m : machine) :
  strcmp_eq0 (label r) "noise" = false ->
  let m' := exec (process_inference_result r) m in
  let evs := events_since m m' in
  let critical := F32.ge (confidence r) F32.c_0_95 in
  let elevated := F32.ge (confidence r) F32.c_0_85 in
  slept evs
  = (if critical then (if alert_silenced m then 1000 else 2000)
     else if elevated then (if alert_silenced m then 1000 else 1900)
     else 800)
  /\ pin_writes LED_STATUS evs
     = (if critical then [] else if elevated then [] else pulses 2)
  /\ pin_writes LED_ALERT evs
     = (if critical then pulses 10 ++ [true]
        else if elevated then pulses 5 else [])
  /\ pin_writes BUZZER_PIN evs
     = (if alert_silenced m then []
        else if critical then pulses 5 else if elevated then pulses 3 else [])
  /\ alert_silenced m' = alert_silenced m
  /\ last_press m' = last_press m
  /\ geophone_buffer m' = geophone_buffer m.
Proof.
  intros Hl. cbv zeta. unfold process_inference_result, events_since. rewrite Hl.
  destruct m as [gb te he ce sr sil lp h cr ar br lg].
  destruct (F32.ge (confidence r) F32.c_0_95);
    [|destruct (F32.ge (confidence r) F32.c_0_85)];
    destruct sil; fw_run; rewrite <- !app_assoc; cbn [app];
    rewrite drop_app_length; repeat split.
Qed.

Lemma alert_by_tier_witness :
  slept (events_since (machine_init idle_board)
           (exec (process_inference_result
                    {| label := "earthquake"; confidence := F32.c_0_98;
                       inference_time_ms := 0; timestamp_ms := 2560 |})
                 (machine_init idle_board)))
  = 2000.
Proof.
  exact (proj1 (alert_by_tier
                  {| label := "earthquake"; confidence := F32.c_0_98;
                     inference_time_ms := 0; timestamp_ms := 2560 |}
                  (machine_init idle_board) eq_refl)).
Defined.

(** X21: on a filled window [run_inference] reads the clock exactly twice
    and changes nothing else; its label is one of the three categories,
    its timestamp is the second clock value and its inference time is the
    time between the two reads modulo 2^32, so it is right across a wrap
    of the clock. *)
Theorem run_inference_timing (r0 : inference_result_t) (m : machine) (d : Z) :
  filled (geophone_buffer m) = true ->
  0 <= d < 2 ^ 32 ->
  uint32 (hw_clock (hw m) (S (clock_reads m)))
  = uint32 (uint32 (hw_clock (hw m) (clock_reads m)) + d) ->
  let r := eval (run_inference r0) m in
  exec (run_inference r0) m = set_clock_reads (S (S (clock_reads m))) m
  /\ inference_time_ms r = d
  /\ timestamp_ms r = uint32 (hw_clock (hw m) (S (clock_reads m)))
  /\ (label r = "earthquake" \/ label r = "tremor" \/ label r = "noise").
Proof.
  intros Hf Hd Ht. cbv zeta.
  destruct (run_inference_filled r0 m Hf) as [-> ->].
  cbn [label inference_time_ms timestamp_ms].
  split; [reflexivity|]. split.
  - rewrite Ht, elapsed_mod. unfold uint32. apply Z.mod_small. lia.
  - split; [reflexivity|]. apply classify_label.
Qed.

Lemma run_inference_timing_witness :
  inference_time_ms
    (eval (run_inference result_zero)
          (set_geophone_buffer
             (geophone_buffer (steady_machine (F32.dec 8 100)))
             (machine_init (pressed_board (2 ^ 32 - 1) 3))))
  = 3.
Proof.
  refine (proj1 (proj2 (run_inference_timing result_zero
                          (set_geophone_buffer
                             (geophone_buffer (steady_machine (F32.dec 8 100)))
                             (machine_init (pressed_board (2 ^ 32 - 1) 3)))
                          3 _ _ _))).
  - vm_compute. reflexivity.
  - lia.
  - vm_compute. reflexivity.
Defined.

End Reporting.

(* ====================================================================== *)
(** * Further properties: runs of the main loop *)

Section Runs.

(** X15: the cadences measure elapsed time modulo 2^32, so they are not
    disturbed by the wrap of the millisecond clock: if [d] milliseconds
    ([0 <= d < 2^32]) passed since a cadence last fired, it fires in this
    iteration exactly when [d] reaches its period (the classification:
    and the window is filled). *)
Theorem cadence_across_clock_wrap (c : cadence) (l : main_locals) (m : machine) (d : Z) :
  0 <= d < 2 ^ 32 ->
  uint32 (hw_clock (hw m) (clock_reads m)) = uint32 (last_fired c l + d) ->
  let r := main_loop_body l m in
  let f := fst (fst r) in
  let l' := snd (fst r) in
  let m' := snd r in
  fired_of c f = gate c m' && (period c <=? d)
  /\ last_fired c l'
     = (if fired_of c f then uint32 (last_fired c l + d) else last_fired c l).
Proof.
  intros Hd Hnow. cbv zeta.
  destruct (main_loop_body_spec l m) as (_ & _ & _ & _ & Hc).
  destruct (Hc c) as [Hf Hl]. rewrite Hnow in Hf, Hl.
  rewrite elapsed_mod in Hf.
  assert (Hu : uint32 d = d) by (unfold uint32; apply Z.mod_small; lia).
  rewrite Hu in Hf. split; assumption.
Qed.

Lemma cadence_across_clock_wrap_witness :
  fired_of Status
    (fst (fst (main_loop_body
                 {| last_sample_time := 5000; last_inference_time := 5000;
                    last_status_time := 2 ^ 32 - 20000; heartbeat_counter := 0;
                    current_sample := sample_zero; inference := result_zero |}
                 (machine_init (steady_board 10000 0 false)))))
  = true.
Proof.
  refine (proj1 (cadence_across_clock_wrap Status _
                   (machine_init (steady_board 10000 0 false)) 30000 _ _)).
  - lia.
  - vm_compute. reflexivity.
Defined.

(** The window after one iteration: pushed once if the acquisition fired,
    untouched otherwise. *)
Lemma main_loop_body_window (l : main_locals) (m : machine) :
  let r := main_loop_body l m in
  exists v,
    geophone_buffer (snd r)
    = (if fired_acquisition (fst (fst r))
       then buffer_push v (geophone_buffer m) else geophone_buffer m).
Proof.
  cbv zeta. rewrite main_loop_body_steps. cbv zeta. cbn [fst snd fired_acquisition].
  set (now := uint32 (hw_clock (hw m) (clock_reads m))).
  set (m0 := set_clock_reads (S (clock_reads m)) m).
  assert (Ha : exists v,
             geophone_buffer (snd (acquisition_tick now l m0))
             = (if fst (fst (acquisition_tick now l m0))
                then buffer_push v (geophone_buffer m) else geophone_buffer m)).
  { destruct (SAMPLE_PERIOD_MS <=? uint32 (now - last_sample_time l)) eqn:Hdue.
    - rewrite (acquisition_tick_due now l m0 Hdue). cbn [fst snd].
      eexists. reflexivity.
    - rewrite (acquisition_tick_idle now l m0 Hdue). cbn [fst snd].
      exists F32.zero. reflexivity. }
  destruct (acquisition_tick now l m0) as [[fa la] ma]. cbn [fst snd] in *.
  destruct Ha as [v Hv]. exists v. rewrite <- Hv.
  pose proof (quiet_inference_tick now la ma) as Qc. unfold exec in Qc.
  destruct (inference_tick now la ma) as [[fc lc] mc]. cbn [fst snd] in *.
  pose proof (quiet_status_tick now lc mc) as Qs. unfold exec in Qs.
  destruct (status_tick now lc mc) as [[fs ls] ms]. cbn [fst snd] in *.
  pose proof (quiet_heartbeat ls ms) as Qh. unfold exec in Qh.
  destruct (heartbeat ls ms) as [lh mh]. cbn [fst snd] in *.
  assert (Qb : quiet (check_button;; sleep_ms 1)).
  { pose proof quiet_check_button. unfold sleep_ms. quiet_tac; auto. }
  specialize (Qb mh).
  destruct Qc as (_ & _ & Qc & _), Qs as (_ & _ & Qs & _),
    Qh as (_ & _ & Qh & _), Qb as (_ & _ & Qb & _).
  congruence.
Qed.

Lemma main_loop_run_S (n : nat) (l : main_locals) (m : machine) :
  let r := main_loop_body l m in
  exec (main_loop (S n) l) m = exec (main_loop n (snd (fst r))) (snd r).
Proof.
  cbv zeta. cbn [main_loop]. unfold bind, exec, ret.
  destruct (main_loop_body l m) as [[f l1] m1]. cbn [fst snd].
  destruct (main_loop n l1 m1) as [[fs l2] m2]. reflexivity.
Qed.

Lemma buffer_push_in_bounds (v : float32) (b : sample_buffer_t) :
  window_in_bounds b -> window_in_bounds (buffer_push v b).
Proof.
  intros [Hlen Hidx]. unfold buffer_push.
  assert (Hu : uint16 (index b + 1) = index b + 1).
  { unfold uint16. apply Z.mod_small. unfold WINDOW_SIZE in Hidx. lia. }
  rewrite Hu.
  destruct (Z.leb_spec WINDOW_SIZE (index b + 1)); split; cbn [buffer index];
    rewrite ?length_insert; try exact Hlen; unfold WINDOW_SIZE in *; lia.
Qed.

(** X16: the window never leaves its array: from a window in bounds (in
    particular from power-up), after any number of loop iterations on any
    board the array still has [WINDOW_SIZE] slots and the write cursor is
    inside it, so every store of [buffer_add_sample] is in bounds. *)
Theorem window_stays_in_bounds (n : nat) (l : main_locals) (m : machine) :
  window_in_bounds (geophone_buffer m) ->
  window_in_bounds (geophone_buffer (exec (main_loop n l) m)).
Proof.
  revert l m. induction n as [|n IH]; intros l m Hb; [exact Hb|].
  rewrite main_loop_run_S. cbv zeta. apply IH.
  destruct (main_loop_body_window l m) as [v Hv]. cbv zeta in Hv. rewrite Hv.
  destruct (fired_acquisition (fst (fst (main_loop_body l m))));
    [apply buffer_push_in_bounds|]; exact Hb.
Qed.

Lemma window_stays_in_bounds_witness :
  window_in_bounds
    (geophone_buffer
       (exec (main_loop 3 (main_locals_init sample_zero result_zero))
             (machine_init (steady_board 10 2048 false)))).
Proof.
  apply window_stays_in_bounds. split; [reflexivity|].
  change (0 <= 0 < 256). lia.
Defined.

Lemma warm_up_run (n : nat) :
  forall (l : main_locals) (m : machine) (vs : list float32),
    window_inv vs (geophone_buffer m) ->
    let fs := fst (eval (main_loop n l) m) in
    let m' := exec (main_loop n l) m in
    exists vs',
      window_inv vs' (geophone_buffer m')
      /\ length vs' = (length vs + count_fired Acquisition fs)%nat
      /\ ((0 < count_fired Classification fs)%nat ->
          WINDOW_SIZE <= Z.of_nat (length vs')).
Proof.
  induction n as [|n IH]; intros l m vs Hinv.
  - cbv zeta. exists vs. split; [exact Hinv|]. split; [cbn; lia|].
    cbn. lia.
  - cbv zeta. rewrite main_loop_S, main_loop_run_S. cbv zeta.
    rewrite !count_fired_cons.
    destruct (main_loop_body_window l m) as [v Hv]. cbv zeta in Hv.
    destruct (main_loop_body_spec l m) as (_ & _ & _ & _ & Hc). cbv zeta in Hc.
    destruct (Hc Classification) as [Hcls _]. cbn [fired_of gate] in Hcls.
    cbn [fired_of].
    set (r := main_loop_body l m) in *.
    assert (Hinv1 : exists vs1,
               window_inv vs1 (geophone_buffer (snd r))
               /\ length vs1
                  = (length vs + if fired_acquisition (fst (fst r)) then 1 else 0)%nat).
    { rewrite Hv. destruct (fired_acquisition (fst (fst r))).
      - exists (vs ++ [v]). split; [apply window_inv_push, Hinv|].
        rewrite length_app. reflexivity.
      - exists vs. split; [exact Hinv|lia]. }
    destruct Hinv1 as (vs1 & Hinv1 & Hlen1).
    destruct (IH (snd (fst r)) (snd r) vs1 Hinv1) as (vs' & Hinv' & Hlen' & Hgate).
    cbv zeta in Hinv', Hlen', Hgate.
    exists vs'. split; [exact Hinv'|]. split; [lia|].
    intros Hpos.
    destruct (fired_classification (fst (fst r))) eqn:Hfc.
    + symmetry in Hcls. apply andb_prop in Hcls. destruct Hcls as [Hfil _].
      rewrite (inv_filled _ _ Hinv1) in Hfil. apply Z.leb_le in Hfil. lia.
    + apply Hgate. lia.
Qed.

(** X17: the warm-up gate over whole runs: starting from power-up, on any
    board and after any number of iterations, the window has been pushed
    once per fired acquisition (cursor = count mod [WINDOW_SIZE], filled
    exactly from [WINDOW_SIZE] acquisitions on), and no classification
    has fired unless at least [WINDOW_SIZE] acquisitions have. *)
Theorem no_classification_before_warm_up
    (h : hardware) (s : geophone_sample_t) (r : inference_result_t) (n : nat) :
  let run := main_loop n (main_locals_init s r) in
  let fs := fst (eval run (machine_init h)) in
  let b := geophone_buffer (exec run (machine_init h)) in
  let pushed := Z.of_nat (count_fired Acquisition fs) in
  index b = pushed mod WINDOW_SIZE
  /\ filled b = (WINDOW_SIZE <=? pushed)
  /\ ((0 < count_fired Classification fs)%nat -> WINDOW_SIZE <= pushed).
Proof.
  cbv zeta.
  destruct (warm_up_run n (main_locals_init s r) (machine_init h) []
              window_inv_zero) as (vs' & Hinv & Hlen & Hgate).
  cbv zeta in Hinv, Hlen, Hgate. cbn [length Nat.add] in Hlen.
  rewrite <- Hlen.
  split; [apply (inv_index _ _ Hinv)|]. split; [apply (inv_filled _ _ Hinv)|].
  exact Hgate.
Qed.

Lemma calm_step_refl (m : machine) : calm_step m m.
Proof.
  split; [repeat split|]. exists []. split; [symmetry; apply app_nil_r|reflexivity].
Qed.

Lemma calm_step_trans (m1 m2 m3 : machine) :
  calm_step m1 m2 -> calm_step m2 m3 -> calm_step m1 m3.
Proof.
  intros [(A1 & A2 & A3) (e1 & L1 & P1)] [(B1 & B2 & B3) (e2 & L2 & P2)].
  split; [repeat split; congruence|].
  exists (e1 ++ e2). split.
  - rewrite L2, L1, app_assoc. reflexivity.
  - rewrite pin_writes_app, P1, P2. reflexivity.
Qed.

Lemma calm_step_log (m : machine) (evs : list event) :
  pin_writes LED_ALERT evs = [] -> calm_step m (set_io_log (io_log m ++ evs) m).
Proof.
  intros Hp. split; [repeat split|]. exists evs. split; [reflexivity|exact Hp].
Qed.

Lemma calm_acquisition_tick (now : Z) (l : main_locals) (m : machine) :
  calm_step m (snd (acquisition_tick now l m)).
Proof.
  destruct (SAMPLE_PERIOD_MS <=? uint32 (now - last_sample_time l)) eqn:Hdue.
  - rewrite (acquisition_tick_due now l m Hdue). cbn [snd].
    rewrite acquire_geophone_sample_exec.
    split; [repeat split|]. exists [].
    split; [symmetry; apply app_nil_r|reflexivity].
  - rewrite (acquisition_tick_idle now l m Hdue). apply calm_step_refl.
Qed.

Lemma calm_status_tick (now : Z) (l : main_locals) (m : machine) :
  calm_step m (snd (status_tick now l m)).
Proof.
  unfold status_tick.
  destruct (30000 <=? uint32 (now - last_status_time l)); [|apply calm_step_refl].
  unfold bind.
  destruct (print_system_status_run m) as (evs & He & _ & _ & Hp & _).
  unfold exec in He.
  destruct (print_system_status m) as [u m1]. cbn [snd] in *. subst m1.
  apply calm_step_log, Hp.
Qed.

Lemma calm_heartbeat (l : main_locals) (m : machine) :
  calm_step m (snd (heartbeat l m)).
Proof.
  unfold heartbeat, bind, gpio_put, emit, modify, ret.
  destruct (heartbeat_counter l mod 1000 =? 0),
           (heartbeat_counter l mod 1000 =? 100); cbn [snd].
  - eapply calm_step_trans; apply calm_step_log; reflexivity.
  - apply calm_step_log. reflexivity.
  - apply calm_step_log. reflexivity.
  - apply calm_step_refl.
Qed.

Lemma inference_tick_idle (now : Z) (l : main_locals) (m : machine) :
  fst (fst (inference_tick now l m)) = false ->
  inference_tick now l m = (false, l, m).
Proof.
  intros Hf. destruct (inference_tick_spec now l m) as (Hg & _).
  cbv zeta in Hg. rewrite Hf in Hg.
  unfold inference_tick, bind, get_machine. rewrite <- Hg. reflexivity.
Qed.

(** Up to the poll of the button, an iteration without classification is
    calm. *)
Lemma idle_iteration (l : main_locals) (m : machine) :
  fired_classification (fst (fst (main_loop_body l m))) = false ->
  exists mh,
    calm_step m mh
    /\ snd (main_loop_body l m) = exec (check_button ;; sleep_ms 1) mh.
Proof.
  rewrite main_loop_body_steps. cbv zeta. cbn [fst snd fired_classification].
  set (now := uint32 (hw_clock (hw m) (clock_reads m))).
  set (m0 := set_clock_reads (S (clock_reads m)) m).
  assert (H0 : calm_step m m0).
  { split; [repeat split|]. exists [].
    split; [symmetry; apply app_nil_r|reflexivity]. }
  pose proof (calm_acquisition_tick now l m0) as Ha.
  destruct (acquisition_tick now l m0) as [[fa la] ma]. cbn [fst snd] in *.
  intros Hidle. rewrite (inference_tick_idle now la ma Hidle). cbn [fst snd].
  pose proof (calm_status_tick now la ma) as Hs.
  destruct (status_tick now la ma) as [[fs ls] ms]. cbn [fst snd] in *.
  pose proof (calm_heartbeat ls ms) as Hh.
  destruct (heartbeat ls ms) as [lh mh]. cbn [fst snd] in *.
  exists mh. split; [|reflexivity].
  eapply calm_step_trans; [exact H0|].
  eapply calm_step_trans; [exact Ha|].
  eapply calm_step_trans; [exact Hs|exact Hh].
Qed.

Lemma button_then_sleep (mh : machine) :
  let m' := exec (check_button ;; sleep_ms 1) mh in
  counters m' = counters mh
  /\ alert_silenced m' = alert_silenced (exec check_button mh)
  /\ io_log m' = io_log (exec check_button mh) ++ [SleepMs 1].
Proof.
  cbv zeta. rewrite exec_bind.
  destruct (check_button_spec mh) as (_ & _ & _ & Hc). cbv zeta in Hc.
  split; [rewrite <- Hc; reflexivity|]. split; reflexivity.
Qed.

Lemma idle_iteration_counters (l : main_locals) (m : machine) :
  fired_classification (fst (fst (main_loop_body l m))) = false ->
  counters (snd (main_loop_body l m)) = counters m.
Proof.
  intros Hidle. destruct (idle_iteration l m Hidle) as (mh & [(Hc & _) _] & ->).
  destruct (button_then_sleep mh) as (Hb & _). cbv zeta in Hb. congruence.
Qed.

(** X18: the alert counters move only when a classification fires: over
    any run of iterations in which none does (the whole warm-up, for
    one), acquisition, status reports, heartbeat and button presses leave
    the three counters as they were. *)
Theorem counters_move_only_on_classification
    (n : nat) (l : main_locals) (m : machine) :
  count_fired Classification (fst (eval (main_loop n l) m)) = 0%nat ->
  counters (exec (main_loop n l) m) = counters m.
Proof.
  revert l m. induction n as [|n IH]; intros l m Hz; [reflexivity|].
  rewrite main_loop_S in Hz. cbv zeta in Hz. rewrite count_fired_cons in Hz.
  rewrite main_loop_run_S. cbv zeta. cbn [fired_of] in Hz.
  destruct (fired_classification (fst (fst (main_loop_body l m)))) eqn:Hf;
    [lia|].
  rewrite IH by lia. apply idle_iteration_counters, Hf.
Qed.

Lemma counters_move_only_on_classification_witness :
  counters (exec (main_loop 3 (main_locals_init sample_zero result_zero))
                 (machine_init (steady_board 10 4095 true)))
  = (0, 0, 0).
Proof.
  apply (counters_move_only_on_classification 3
           (main_locals_init sample_zero result_zero)
           (machine_init (steady_board 10 4095 true))).
  vm_compute. reflexivity.
Defined.

(** X19: the latched alert LED is left alone by everything but an alert
    and an accepted press: in an iteration in which no classification
    fires and the silence flag is not toggled, nothing is written to
    [LED_ALERT]. *)
Theorem alert_led_latch_persists (l : main_locals) (m : machine) :
  let r := main_loop_body l m in
  fired_classification (fst (fst r)) = false ->
  alert_silenced (snd r) = alert_silenced m ->
  pin_writes LED_ALERT (events_since m (snd r)) = [].
Proof.
  cbv zeta. intros Hidle Hsil.
  destruct (idle_iteration l m Hidle) as (mh & [(_ & Hs & _) (evs & Hlog & Hp)] & Hm).
  rewrite Hm in Hsil |- *.
  destruct (button_then_sleep mh) as (_ & Hbs & Hbl). cbv zeta in Hbs, Hbl.
  destruct (check_button_spec mh) as (Hcs & _). cbv zeta in Hcs.
  rewrite Hbs, Hcs, <- Hs in Hsil.
  assert (Hacc : press_accepted (hw_button (hw mh) (button_reads mh))
                   (uint32 (hw_clock (hw mh) (clock_reads mh))) mh = false).
  { destruct (press_accepted _ _ mh); [|reflexivity].
    destruct (alert_silenced mh); discriminate Hsil. }
  unfold events_since. rewrite Hbl, (check_button_idle mh Hacc).
  cbn [io_log set_button_reads set_clock_reads].
  rewrite Hlog, <- app_assoc, drop_app_length, pin_writes_app, Hp. reflexivity.
Qed.

Lemma alert_led_latch_persists_witness :
  pin_writes LED_ALERT
    (events_since (machine_init (steady_board 30000 2048 false))
       (snd (main_loop_body (main_locals_init sample_zero result_zero)
               (machine_init (steady_board 30000 2048 false)))))
  = [].
Proof.
  apply (alert_led_latch_persists (main_locals_init sample_zero result_zero)
           (machine_init (steady_board 30000 2048 false))).
  - vm_compute. reflexivity.
  - vm_compute. reflexivity.
Defined.

End Runs.
